(** * Playbase: the upload, signup and login handlers of [server.js]

    A shallow embedding of the request handlers of [src/server.js] and of
    the pieces of their environment they depend on: the Oracle store with
    its two tables, the upload directory on disk, the process-wide
    [loadedData] array, the [multer] upload middleware configured in the
    file, and the JavaScript string primitives the file calls
    ([path.extname], [toLowerCase], [RegExp.prototype.test], the
    number-to-string conversion of [Date.now() + ext]).

    Conventions.
    - JavaScript strings are modelled as [string], read as sequences of
      code units below 256; on these [toLowerCase] is the one of
      JavaScript (A-Z and the Latin-1 capitals).
    - The fields of a JSON body are values of any JSON kind
      ([Js.Value]); the fields of a multipart form are strings or absent
      ([None] is [undefined]).
    - The file defines [loadData] and never calls it: the process starts
      with an empty [loadedData] ([initial_world]).
    - [path] is Node's POSIX variant.
    - What the outside world decides during one request (the clock, the
      faults of the store driver, the id the store assigns, the salt drawn
      by bcrypt) is gathered in the record [Env].
    - [console.log] / [console.error] output is not part of the state. *)

From Stdlib Require Import ZArith String Ascii List Lia Bool DecimalString.
From stdpp Require Import gmap strings.

Local Open Scope string_scope.
Local Open Scope list_scope.
Local Open Scope Z_scope.

(** ** JavaScript primitives used by the handlers *)

Module Js.

(** Truthiness of a value that is either [undefined] or a string:
    [!x] is [true] for [undefined] and for the empty string. *)
Definition truthy (x : option string) : bool :=
  match x with
  | None => false
  | Some s => negb (String.eqb s "")
  end.

(** The string held by a value; only used on values found truthy. *)
Definition text (x : option string) : string :=
  match x with
  | None => ""
  | Some s => s
  end.

(** A field of a body parsed by [express.json()]: missing, or a JSON
    value of any kind. Arrays and objects are kept as their JSON text;
    what the handlers do with a number depends only on its being zero or
    not and on its not being a string. *)
Inductive Value :=
| VUndefined
| VNull
| VBool (b : bool)
| VNumber (n : Z)
| VString (s : string)
| VObject (json : string).

(** [!v] is [true] exactly on [undefined], [null], [false], [0] and the
    empty string. *)
Definition truthy_value (v : Value) : bool :=
  match v with
  | VUndefined | VNull => false
  | VBool b => b
  | VNumber n => negb (n =? 0)%Z
  | VString s => negb (String.eqb s "")
  | VObject _ => true
  end.

Definition typeof (v : Value) : string :=
  match v with
  | VUndefined => "undefined"
  | VNull | VObject _ => "object"
  | VBool _ => "boolean"
  | VNumber _ => "number"
  | VString _ => "string"
  end.

(** A field that is absent or a string, as a value. *)
Definition of_field (x : option string) : Value :=
  match x with
  | None => VUndefined
  | Some s => VString s
  end.

(** [String.prototype.toLowerCase], code unit by code unit: below 256
    the capitals are A-Z (65-90) and the Latin-1 capitals 192-222 without
    the multiplication sign 215; each is 32 below its small letter. *)
Definition lower_char (c : ascii) : ascii :=
  let n := N_of_ascii c in
  if (((65 <=? n) && (n <=? 90)) ||
      ((192 <=? n) && (n <=? 222) && negb (n =? 215)))%N
  then ascii_of_N (n + 32) else c.

Fixpoint toLowerCase (s : string) : string :=
  match s with
  | EmptyString => EmptyString
  | String c s' => String (lower_char c) (toLowerCase s')
  end.

(** Does the literal [p] match at the very start of [s]? *)
Fixpoint startsWith (p s : string) : bool :=
  match p, s with
  | EmptyString, _ => true
  | String _ _, EmptyString => false
  | String a p', String b s' => Ascii.eqb a b && startsWith p' s'
  end.

(** [/p/.test(s)] for a literal pattern [p] without anchors: the
    pattern may match at any position of [s]. *)
Fixpoint includes (p s : string) : bool :=
  startsWith p s ||
  match s with
  | EmptyString => false
  | String _ s' => includes p s'
  end.

(** Does the character [c] occur in [s]? *)
Fixpoint contains_char (c : ascii) (s : string) : bool :=
  match s with
  | EmptyString => false
  | String a s' => Ascii.eqb a c || contains_char c s'
  end.

(** [String(n)] for an integral number, as in [Date.now() + ext]. *)
Definition number_toString (n : Z) : string :=
  NilZero.string_of_int (Z.to_int n).

(** [s.slice(from, to)] for [0 <= from <= to]. *)
Definition slice (s : string) (from to : Z) : string :=
  String.substring (Z.to_nat from) (Z.to_nat (to - from)) s.

End Js.

(** ** Node's [path.extname] (POSIX)

    The function belongs to Node, not to the file; the definitions below
    follow its loop variable by variable. *)

Module Path.

(** The local variables of the scanning loop of [extname]. *)
Record Scan := mkScan {
  startDot     : Z;
  startPart    : Z;
  end_         : Z;
  matchedSlash : bool;
  preDotState  : Z
}.

Definition scan0 : Scan := mkScan (-1) 0 (-1) true 0.

Definition set_startPart (st : Scan) (v : Z) : Scan :=
  mkScan (startDot st) v (end_ st) (matchedSlash st) (preDotState st).
Definition set_startDot (st : Scan) (v : Z) : Scan :=
  mkScan v (startPart st) (end_ st) (matchedSlash st) (preDotState st).
Definition set_preDotState (st : Scan) (v : Z) : Scan :=
  mkScan (startDot st) (startPart st) (end_ st) (matchedSlash st) v.
Definition mark_end (st : Scan) (v : Z) : Scan :=
  mkScan (startDot st) (startPart st) v false (preDotState st).

(** What one iteration does to the variables when the character at
    index [i] is not a slash. *)
Definition scan_char (code : ascii) (i : Z) (st : Scan) : Scan :=
  let st1 := if end_ st =? -1 then mark_end st (i + 1) else st in
  if Ascii.eqb code "." then
    if startDot st1 =? -1 then set_startDot st1 i
    else if negb (preDotState st1 =? 1) then set_preDotState st1 1
    else st1
  else if negb (startDot st1 =? -1) then set_preDotState st1 (-1)
  else st1.

(** [for (let i = n - 1; i >= 0; --i) { ... }]: the first argument is
    the number of indices still to visit. *)
Fixpoint scan (path : string) (n : nat) (st : Scan) : Scan :=
  match n with
  | O => st
  | S i =>
    match String.get i path with
    | None => st
    | Some code =>
      if Ascii.eqb code "/" then
        if negb (matchedSlash st)
        then set_startPart st (Z.of_nat i + 1)      (* break *)
        else scan path i st                         (* continue *)
      else scan path i (scan_char code (Z.of_nat i) st)
    end
  end.

Definition extname (path : string) : string :=
  let st := scan path (String.length path) scan0 in
  if (startDot st =? -1) || (end_ st =? -1) || (preDotState st =? 0) ||
     ((preDotState st =? 1) && (startDot st =? end_ st - 1) &&
      (startDot st =? startPart st + 1))
  then ""
  else Js.slice path (startDot st) (end_ st).

End Path.

(** ** The persistent store, the disk and the catalogue cache *)

(** A row of [users(id, username, password)]. *)
Record UserRow := mkUserRow {
  u_id       : Z;
  u_username : string;
  u_password : string
}.

(** A row of [videos(id, title, description, tags, video_path)]. *)
Record VideoRow := mkVideoRow {
  v_id          : Z;
  v_title       : string;
  v_description : string;
  v_tags        : string;
  v_video_path  : string
}.

(** The committed content of the store. *)
Record Db := mkDb {
  users  : list UserRow;
  videos : list VideoRow
}.

(** An element of [loadedData]: a JavaScript object whose [id] key may
    be missing. *)
Record VideoEntry := mkEntry {
  id          : option Z;
  title       : string;
  description : string;
  tags        : string;
  videoPath   : string
}.

(** The state that outlives a request: the store, the files on disk
    (path to size in bytes) and the [loadedData] array. *)
Record World := mkWorld {
  db         : Db;
  disk       : gmap string Z;
  loadedData : list VideoEntry
}.

(** The calls into the [oracledb] driver made by the file. *)
Inductive DbOp :=
| GetConnection | SelectVideos | InsertVideo
| SelectUser | InsertUser | SelectLogin
| Commit | Close.

(** What the outside world decides during one request. [fault op] is the
    message of the error the driver throws at [op], if it throws. *)
Record Env := mkEnv {
  now    : Z;
  fault  : DbOp -> option string;
  new_id : Z;
  salt   : string
}.

(** ** Responses *)

Inductive Json :=
| JObject (fields : list (string * string))
| JVideos (entries : list VideoEntry).

Record Response := mkResponse {
  status : Z;
  body   : Json
}.

(** [res.json(o)] answers with status 200, [res.status(c).json(o)] with
    status [c]. *)
Definition res_json (o : Json) : Response := mkResponse 200 o.
Definition res_status_json (c : Z) (o : Json) : Response := mkResponse c o.

(** ** Code that may throw, over the world *)

Inductive Outcome (A : Type) :=
| Ok (a : A)
| Throw (message : string).
Arguments Ok {A} a.
Arguments Throw {A} message.

Definition M (A : Type) : Type := World -> World * Outcome A.

Definition ret {A} (a : A) : M A := fun w => (w, Ok a).
Definition throw {A} (m : string) : M A := fun w => (w, Throw m).
Definition bind {A B} (c : M A) (k : A -> M B) : M B :=
  fun w => match c w with
           | (w', Ok a) => k a w'
           | (w', Throw m) => (w', Throw m)
           end.

Declare Scope handler_scope.
Delimit Scope handler_scope with handler.
Notation "'let*' x ':=' c 'in' k" := (bind c (fun x => k))
  (at level 10, x name, c at level 100, k at level 200) : handler_scope.
Notation "'do' c 'in' k" := (bind c (fun _ => k))
  (at level 10, c at level 100, k at level 200) : handler_scope.

(** [try { body } catch (err) { handler }] around a body that ends in a
    response. *)
Definition try_catch (body : M Response) (handler : string -> Response)
  : World -> World * Response :=
  fun w => match body w with
           | (w', Ok r) => (w', r)
           | (w', Throw m) => (w', handler m)
           end.

(** An outcome as a step of a handler. *)
Definition lift {A} (o : Outcome A) : M A := fun w => (w, o).

(** ** [bcryptjs] *)

(** The two functions of [bcryptjs] the file calls, on strings. Hashing
    a string gives a hash; comparing a string with a stored text gives a
    verdict or fails (a stored text of the length of a hash that is not
    one). *)
Class Bcrypt := {
  bcrypt_hash    : string -> Z -> string -> string;
  bcrypt_compare : string -> string -> Outcome bool
}.

(** [bcrypt.hash(s, rounds)] and [bcrypt.compare(s, hash)] on any value:
    both fail on an [s] that is not a string. *)
Definition bcryptjs_hash `{Bcrypt} (s : Js.Value) (rounds : Z)
    (salt : string) : Outcome string :=
  match s with
  | Js.VString password => Ok (bcrypt_hash password rounds salt)
  | _ => Throw ("Illegal arguments: " +:+ Js.typeof s +:+ ", number")
  end.

Definition bcryptjs_compare `{Bcrypt} (s : Js.Value) (hash : string)
  : Outcome bool :=
  match s with
  | Js.VString password => bcrypt_compare password hash
  | _ => Throw ("Illegal arguments: " +:+ Js.typeof s +:+ ", string")
  end.

(** ** The [oracledb] driver *)

(** A connection holds the rows inserted through it and not yet
    committed ([autoCommit] is off). *)
Record Connection := mkConnection {
  pending_users  : list UserRow;
  pending_videos : list VideoRow
}.

Definition guard (env : Env) (op : DbOp) : M unit :=
  match fault env op with
  | Some m => throw m
  | None => ret tt
  end.

Definition set_db (d : Db) : M unit :=
  fun w => (mkWorld d (disk w) (loadedData w), Ok tt).

Definition get_db : M Db := fun w => (w, Ok (db w)).

Local Open Scope handler_scope.

Definition getConnection (env : Env) : M Connection :=
  do guard env GetConnection in
  ret (mkConnection [] []).

(** [SELECT * FROM videos] *)
Definition select_videos (env : Env) (c : Connection) : M (list VideoRow) :=
  do guard env SelectVideos in
  let* d := get_db in
  ret (videos d ++ pending_videos c).

(** [INSERT INTO videos (title, description, tags, video_path) VALUES ...];
    the store assigns the id. *)
Definition insert_video (env : Env) (c : Connection)
    (title description tags videoPath : string) : M Connection :=
  do guard env InsertVideo in
  ret (mkConnection (pending_users c)
         (pending_videos c ++
          [mkVideoRow (new_id env) title description tags videoPath])).

(** [SELECT * FROM users WHERE username = :username] *)
Definition select_user (env : Env) (c : Connection) (username : string)
  : M (list UserRow) :=
  do guard env SelectUser in
  let* d := get_db in
  ret (List.filter (fun r => String.eqb (u_username r) username)
         (users d ++ pending_users c)).

(** [INSERT INTO users (username, password) VALUES ...] *)
Definition insert_user (env : Env) (c : Connection)
    (username password : string) : M Connection :=
  do guard env InsertUser in
  ret (mkConnection
         (pending_users c ++ [mkUserRow (new_id env) username password])
         (pending_videos c)).

(** [SELECT id, username, password FROM users
     WHERE username = :username AND ROWNUM = 1] *)
Definition select_login (env : Env) (c : Connection) (username : string)
  : M (list UserRow) :=
  do guard env SelectLogin in
  let* d := get_db in
  ret (firstn 1 (List.filter (fun r => String.eqb (u_username r) username)
                   (users d ++ pending_users c))).

Definition commit (env : Env) (c : Connection) : M Connection :=
  do guard env Commit in
  let* d := get_db in
  do set_db (mkDb (users d ++ pending_users c) (videos d ++ pending_videos c)) in
  ret (mkConnection [] []).

(** Closing drops what was not committed. *)
Definition close (env : Env) (c : Connection) : M unit :=
  guard env Close.

(** What the driver and the store do with a bind value for [:username]
    that is not a string (a number, a boolean, an array, an object) is
    not decided by the file: the rows the comparison selects, or the
    error thrown, and the text an insert stores, or the error thrown. *)
Class Driver := {
  select_bound : Js.Value -> list UserRow -> Outcome (list UserRow);
  insert_bound : Js.Value -> Outcome string
}.

(** The rows with [username = :username] among [rows], for any bind
    value. *)
Definition select_rows `{Driver} (v : Js.Value) (rows : list UserRow)
  : Outcome (list UserRow) :=
  match v with
  | Js.VString name =>
    Ok (List.filter (fun r => String.eqb (u_username r) name) rows)
  | _ => select_bound v rows
  end.

(** The text stored for [:username], for any bind value. *)
Definition insert_text `{Driver} (v : Js.Value) : Outcome string :=
  match v with
  | Js.VString name => Ok name
  | _ => insert_bound v
  end.

(** The three statements on [users] with a bind value of any kind. *)
Definition select_user_value `{Driver} (env : Env) (c : Connection)
    (v : Js.Value) : M (list UserRow) :=
  do guard env SelectUser in
  let* d := get_db in
  lift (select_rows v (users d ++ pending_users c)).

Definition insert_user_value `{Driver} (env : Env) (c : Connection)
    (v : Js.Value) (password : string) : M Connection :=
  do guard env InsertUser in
  let* name := lift (insert_text v) in
  ret (mkConnection
         (pending_users c ++ [mkUserRow (new_id env) name password])
         (pending_videos c)).

Definition select_login_value `{Driver} (env : Env) (c : Connection)
    (v : Js.Value) : M (list UserRow) :=
  do guard env SelectLogin in
  let* d := get_db in
  let* rows := lift (select_rows v (users d ++ pending_users c)) in
  ret (firstn 1 rows).

Definition push_loadedData (e : VideoEntry) : M unit :=
  fun w => (mkWorld (db w) (disk w) (loadedData w ++ [e]), Ok tt).

Definition set_loadedData (l : list VideoEntry) : M unit :=
  fun w => (mkWorld (db w) (disk w) l, Ok tt).

Definition write_file (path : string) (bytes : Z) : M unit :=
  fun w => (mkWorld (db w) (<[path := bytes]> (disk w)) (loadedData w), Ok tt).

Definition remove_file (path : string) : M unit :=
  fun w => (mkWorld (db w) (delete path (disk w)) (loadedData w), Ok tt).

(** ** The upload middleware: [multer] as the file configures it *)

(** The file part of a multipart request, as [multer] hands it to
    [fileFilter] and [filename]; [size] is the number of bytes the part's
    stream delivers. *)
Record FilePart := mkFilePart {
  originalname : string;
  mimetype     : string;
  size         : Z
}.

(** The multipart form posted to [/upload-video]. *)
Record UploadForm := mkUploadForm {
  form_title       : option string;
  form_description : option string;
  form_tags        : option string;
  form_videoFile   : option FilePart
}.

(** [req.file] once [multer] has stored the file. *)
Record StoredFile := mkStoredFile {
  filename  : string;
  file_path : string;
  file_size : Z
}.

(** [req] as the route handler sees it. *)
Record UploadReq := mkUploadReq {
  body_title       : option string;
  body_description : option string;
  body_tags        : option string;
  file             : option StoredFile
}.

Module Upload.

(** [storage.destination] *)
Definition destination : string := "uploads/".

(** [storage.filename]: [Date.now() + path.extname(file.originalname)] *)
Definition storage_filename (env : Env) (f : FilePart) : string :=
  Js.number_toString (now env) +:+ Path.extname (originalname f).

(** [limits.fileSize] *)
Definition fileSize : Z := 200 * 1024 * 1024.

(** [/mp4|mov|avi|mkv/.test(s)] *)
Definition fileTypes_test (s : string) : bool :=
  Js.includes "mp4" s || Js.includes "mov" s ||
  Js.includes "avi" s || Js.includes "mkv" s.

(** [fileFilter]: [Ok true] is [cb(null, true)], [Throw m] is
    [cb(new Error(m))]. *)
Definition fileFilter (f : FilePart) : Outcome bool :=
  let extname :=
    fileTypes_test (Js.toLowerCase (Path.extname (originalname f))) in
  let mimetype := fileTypes_test (mimetype f) in
  if extname && mimetype then Ok true
  else Throw "Only video files are allowed!".

Definition call_fileFilter (f : FilePart) : M bool :=
  match fileFilter f with
  | Ok b => ret b
  | Throw m => throw m
  end.

(** Modelled from the spec: the enforcement of [limits.fileSize] is
    multer's code, which is not part of the source. The size gate rejects
    a file whose number of bytes exceeds the ceiling. *)
Definition over_limit (bytes : Z) : bool := fileSize <? bytes.

(** Modelled from the spec: [upload.single("videoFile")] is multer's
    code, which is not part of the source. A part without a file name is
    not a file. Otherwise the type gate ([fileFilter]) runs first; a part
    it lets through is streamed to [destination + filename]; a stream
    over the limit is cut at the limit, the request fails with multer's
    "File too large" error and the file written so far is removed. *)
Definition single (env : Env) (form : UploadForm) : M UploadReq :=
  let no_file :=
    mkUploadReq (form_title form) (form_description form)
                (form_tags form) None in
  match form_videoFile form with
  | None => ret no_file
  | Some f =>
    if String.eqb (originalname f) "" then ret no_file
    else
      let* include := call_fileFilter f in
      if negb include then ret no_file
      else
        let name := storage_filename env f in
        let target := destination +:+ name in
        if over_limit (size f) then
          do write_file target fileSize in
          do remove_file target in
          throw "File too large"
        else
          do write_file target (size f) in
          ret (mkUploadReq (form_title form) (form_description form)
                 (form_tags form)
                 (Some (mkStoredFile name target (size f))))
  end.

End Upload.

(** ** The routes *)

(** The centralized error-handling middleware. *)
Definition error_middleware (message : string) : Response :=
  res_status_json 500
    (JObject [("message", "An internal server error occurred.");
              ("error", message)]).

(** [loadData()], run once when the server starts. *)
Definition entry_of_row (row : VideoRow) : VideoEntry :=
  mkEntry (Some (v_id row)) (v_title row) (v_description row)
          (v_tags row) (v_video_path row).

Definition loadData (env : Env) : World -> World :=
  fun w =>
    match getConnection env w with
    | (w1, Throw _) => w1
    | (w1, Ok connection) =>
      let w2 := fst ((let* rows := select_videos env connection in
                      set_loadedData (List.map entry_of_row rows)) w1) in
      fst (close env connection w2)
    end.

(** [GET /api/videos] *)
Definition get_api_videos : World -> World * Response :=
  fun w => (w, res_json (JVideos (loadedData w))).

(** The handler of [POST /upload-video], after the middleware. *)
Definition upload_video_handler (env : Env) (req : UploadReq)
  : World -> World * Response :=
  let title := body_title req in
  let description := body_description req in
  let tags := body_tags req in
  let videoPath :=
    match file req with
    | Some f => Some ("/uploads/" +:+ filename f)
    | None => None
    end in
  if negb (Js.truthy title) || negb (Js.truthy description) ||
     negb (Js.truthy tags) || negb (Js.truthy videoPath)
  then fun w =>
    (w, res_status_json 400
          (JObject [("message",
                     "Please provide all fields and a video file.")]))
  else
    try_catch
      (let* connection := getConnection env in
       let* connection :=
         insert_video env connection (Js.text title) (Js.text description)
                      (Js.text tags) (Js.text videoPath) in
       let* connection := commit env connection in
       do close env connection in
       do push_loadedData
            (mkEntry None (Js.text title) (Js.text description)
                     (Js.text tags) (Js.text videoPath)) in
       ret (res_json
              (JObject [("message", "Video uploaded successfully!");
                        ("videoPath", Js.text videoPath)])))
      (fun err_message =>
         res_status_json 500
           (JObject [("message", "Database error");
                     ("error", err_message)])).

(** [POST /upload-video]: the middleware, then the handler; an error of
    the middleware goes to the error-handling middleware. *)
Definition post_upload_video (env : Env) (form : UploadForm)
  : World -> World * Response :=
  fun w =>
    match Upload.single env form w with
    | (w', Ok req) => upload_video_handler env req w'
    | (w', Throw m) => (w', error_middleware m)
    end.

(** A body of [/signup] or [/login] whose two fields are absent or
    strings. *)
Record Credentials := mkCredentials {
  username : option string;
  password : option string
}.

Section Auth.
Context `{Bcrypt}.

(** [POST /signup] on such a body ([signup_json] below takes any body
    and agrees with this one, [signup_json_of_credentials]). *)
Definition post_signup (env : Env) (req : Credentials)
  : World -> World * Response :=
  let username := username req in
  let password := password req in
  if negb (Js.truthy username) || negb (Js.truthy password)
  then fun w =>
    (w, res_status_json 400
          (JObject [("message",
                     "Please provide both username and password.")]))
  else
    try_catch
      (let* connection := getConnection env in
       let* checkUserResult :=
         select_user env connection (Js.text username) in
       if (0 <? Z.of_nat (List.length checkUserResult))
       then ret (res_status_json 400
                   (JObject [("message", "Username already exists.")]))
       else
         let hashedPassword :=
           bcrypt_hash (Js.text password) 10 (salt env) in
         let* connection :=
           insert_user env connection (Js.text username) hashedPassword in
         let* connection := commit env connection in
         do close env connection in
         ret (res_json
                (JObject [("message", "User registered successfully!")])))
      (fun _ =>
         res_status_json 500
           (JObject [("message", "Error registering user.")])).

(** [POST /login] on such a body ([login_json] below takes any body and
    agrees with this one, [login_json_of_credentials]). *)
Definition post_login (env : Env) (req : Credentials)
  : World -> World * Response :=
  let username := username req in
  let password := password req in
  if negb (Js.truthy username) || negb (Js.truthy password)
  then fun w =>
    (w, res_status_json 400
          (JObject [("message",
                     "Please provide both username and password.")]))
  else
    try_catch
      (let* connection := getConnection env in
       let* rows := select_login env connection (Js.text username) in
       match rows with
       | [] =>
         ret (res_status_json 401
                (JObject [("message", "Invalid username or password.")]))
       | user :: _ =>
         let storedPassword := u_password user in
         let* isPasswordMatch :=
           lift (bcrypt_compare (Js.text password) storedPassword) in
         if negb isPasswordMatch
         then ret (res_status_json 401
                     (JObject [("message",
                                "Invalid username or password.")]))
         else ret (res_json (JObject [("message", "Login successful!")]))
       end)
      (fun _ =>
         res_status_json 500 (JObject [("message", "Error logging in.")])).

End Auth.

(** The JSON body of [/signup] and [/login] as [express.json()] delivers
    it: each field missing or of any JSON kind. *)
Record JsonBody := mkJsonBody {
  j_username : Js.Value;
  j_password : Js.Value
}.

Definition json_of (req : Credentials) : JsonBody :=
  mkJsonBody (Js.of_field (username req)) (Js.of_field (password req)).

Section JsonAuth.
Context `{Bcrypt} `{Driver}.

(** [POST /signup] *)
Definition signup_json (env : Env) (req : JsonBody)
  : World -> World * Response :=
  let username := j_username req in
  let password := j_password req in
  if negb (Js.truthy_value username) || negb (Js.truthy_value password)
  then fun w =>
    (w, res_status_json 400
          (JObject [("message",
                     "Please provide both username and password.")]))
  else
    try_catch
      (let* connection := getConnection env in
       let* checkUserResult := select_user_value env connection username in
       if (0 <? Z.of_nat (List.length checkUserResult))
       then ret (res_status_json 400
                   (JObject [("message", "Username already exists.")]))
       else
         let* hashedPassword :=
           lift (bcryptjs_hash password 10 (salt env)) in
         let* connection :=
           insert_user_value env connection username hashedPassword in
         let* connection := commit env connection in
         do close env connection in
         ret (res_json
                (JObject [("message", "User registered successfully!")])))
      (fun _ =>
         res_status_json 500
           (JObject [("message", "Error registering user.")])).

(** [POST /login] *)
Definition login_json (env : Env) (req : JsonBody)
  : World -> World * Response :=
  let username := j_username req in
  let password := j_password req in
  if negb (Js.truthy_value username) || negb (Js.truthy_value password)
  then fun w =>
    (w, res_status_json 400
          (JObject [("message",
                     "Please provide both username and password.")]))
  else
    try_catch
      (let* connection := getConnection env in
       let* rows := select_login_value env connection username in
       match rows with
       | [] =>
         ret (res_status_json 401
                (JObject [("message", "Invalid username or password.")]))
       | user :: _ =>
         let storedPassword := u_password user in
         let* isPasswordMatch :=
           lift (bcryptjs_compare password storedPassword) in
         if negb isPasswordMatch
         then ret (res_status_json 401
                     (JObject [("message",
                                "Invalid username or password.")]))
         else ret (res_json (JObject [("message", "Login successful!")]))
       end)
      (fun _ =>
         res_status_json 500 (JObject [("message", "Error logging in.")])).

End JsonAuth.

(** ** The server as a whole *)

(** The world when the process starts: [let loadedData = []]. Nothing
    in the file calls [loadData]. *)
Definition initial_world (d : Db) (files : gmap string Z) : World :=
  mkWorld d files [].

Inductive Request :=
| GetVideos
| UploadVideo (form : UploadForm)
| Signup (req : Credentials)
| Login (req : Credentials).

Definition handle `{Bcrypt} (env : Env) (rq : Request)
  : World -> World * Response :=
  match rq with
  | GetVideos => get_api_videos
  | UploadVideo form => post_upload_video env form
  | Signup req => post_signup env req
  | Login req => post_login env req
  end.

(** Requests served one after the other, each in its own environment. *)
Fixpoint serve `{Bcrypt} (trace : list (Env * Request)) (w : World)
  : World * list Response :=
  match trace with
  | [] => (w, [])
  | (env, rq) :: rest =>
    let (w1, r) := handle env rq w in
    let (w2, rs) := serve rest w1 in
    (w2, r :: rs)
  end.

(** ** Vocabulary of the statements *)

(** The file a form really carries: a part with a file name. *)
Definition provided_file (form : UploadForm) : option FilePart :=
  match form_videoFile form with
  | Some f => if String.eqb (originalname f) "" then None else Some f
  | None => None
  end.

(** The rows of [users] with a given user name. *)
Definition rows_of (name : string) (w : World) : list UserRow :=
  List.filter (fun r => String.eqb (u_username r) name) (users (db w)).

(** Does some field of a JSON answer contain the text [m]? *)
Definition carries (m : string) (r : Response) : bool :=
  match body r with
  | JObject fields => existsb (fun kv => Js.includes m (snd kv)) fields
  | JVideos _ => false
  end.

(** A listing holds both an entry with an [id] key and one without. *)
Definition has_id (e : VideoEntry) : bool :=
  match id e with Some _ => true | None => false end.

Definition heterogeneous (l : list VideoEntry) : bool :=
  existsb has_id l && existsb (fun e => negb (has_id e)) l.

(** The answers of the routes, by name. *)
Definition missing_fields : Response :=
  res_status_json 400
    (JObject [("message", "Please provide all fields and a video file.")]).

Definition database_error (m : string) : Response :=
  res_status_json 500 (JObject [("message", "Database error"); ("error", m)]).

Definition upload_success (videoPath : string) : Response :=
  res_json (JObject [("message", "Video uploaded successfully!");
                     ("videoPath", videoPath)]).

Definition missing_credentials : Response :=
  res_status_json 400
    (JObject [("message", "Please provide both username and password.")]).

Definition username_exists : Response :=
  res_status_json 400 (JObject [("message", "Username already exists.")]).

Definition registration_error : Response :=
  res_status_json 500 (JObject [("message", "Error registering user.")]).

Definition registered : Response :=
  res_json (JObject [("message", "User registered successfully!")]).

Definition invalid_credentials : Response :=
  res_status_json 401 (JObject [("message", "Invalid username or password.")]).

Definition login_error : Response :=
  res_status_json 500 (JObject [("message", "Error logging in.")]).

Definition login_successful : Response :=
  res_json (JObject [("message", "Login successful!")]).

(** Worlds reached by the handlers. *)
Definition with_file (path : string) (bytes : Z) (w : World) : World :=
  mkWorld (db w) (<[path := bytes]> (disk w)) (loadedData w).

Definition without_file (path : string) (w : World) : World :=
  mkWorld (db w) (delete path (disk w)) (loadedData w).

Definition with_video (row : VideoRow) (w : World) : World :=
  mkWorld (mkDb (users (db w)) (videos (db w) ++ [row]))
          (disk w) (loadedData w).

Definition with_user (row : UserRow) (w : World) : World :=
  mkWorld (mkDb (users (db w) ++ [row]) (videos (db w)))
          (disk w) (loadedData w).

Definition with_entry (e : VideoEntry) (w : World) : World :=
  mkWorld (db w) (disk w) (loadedData w ++ [e]).

(** The type gate read as membership in the exact set
    [{mp4, mov, avi, mkv}]: the lower-cased extension is a dot followed
    by a member, the MIME type is a member or [video/] followed by one.
    This is the reading the code is compared with, not the code. *)
Definition allowed_types : list string := ["mp4"; "mov"; "avi"; "mkv"].

Definition exact_extension_allowed (name : string) : bool :=
  existsb (fun t => String.eqb (Js.toLowerCase (Path.extname name))
                               ("." +:+ t))
          allowed_types.

Definition exact_mimetype_allowed (m : string) : bool :=
  existsb (fun t => String.eqb m t || String.eqb m ("video/" +:+ t))
          allowed_types.

Definition exact_type_gate (f : FilePart) : bool :=
  exact_extension_allowed (originalname f) &&
  exact_mimetype_allowed (mimetype f).

(** ** Invariant of the loop of [path.extname] *)

Section ScanInvariant.

Variable path : string.

Definition not_slash (k : nat) : Prop :=
  String.get k path <> Some "/"%char.

(** When [n] indices are still to be visited: either nothing but
    trailing slashes was seen, or the indices from [n] up to the marked
    end hold no slash and the dot, if one was found, lies among them. *)
Definition scan_inv (n : nat) (st : Path.Scan) : Prop :=
  (Path.end_ st = -1 /\ Path.startDot st = -1) \/
  (Z.of_nat n < Path.end_ st /\
   Path.matchedSlash st = false /\
   (forall k : nat,
       Z.of_nat n <= Z.of_nat k < Path.end_ st -> not_slash k) /\
   (Path.startDot st = -1 \/
    Z.of_nat n <= Path.startDot st < Path.end_ st)).

(** What the invariant leaves once the loop is over. *)
Definition scan_post (st : Path.Scan) : Prop :=
  Path.startDot st = -1 \/ Path.end_ st = -1 \/
  (0 <= Path.startDot st < Path.end_ st /\
   forall k : nat,
     Path.startDot st <= Z.of_nat k < Path.end_ st -> not_slash k).

End ScanInvariant.

(** ** Configuration *)

Module Config.

(** The object passed to [oracledb.getConnection]. *)
Record DbConfig := mkDbConfig {
  user             : string;
  password         : string;
  connectionString : string
}.

(** [process.env.X || d]: an unset or empty variable gives the default. *)
Definition or_default (v : option string) (d : string) : string :=
  if Js.truthy v then Js.text v else d.

(** [dbConfig], from the variables of the process. *)
Definition dbConfig (process_env : gmap string string) : DbConfig :=
  mkDbConfig
    (or_default (process_env !! "DB_USER") "system")
    (or_default (process_env !! "DB_PASSWORD") "4493")
    (or_default (process_env !! "DB_CONNECTION_STRING") "localhost/XE").

End Config.

(** ** Predicates on worlds and traces *)

(** [bcrypt.compare] accepts what [bcrypt.hash] produced from the same
    password. *)
Definition bcrypt_sound `{Bcrypt} : Prop :=
  forall password rounds salt,
    bcrypt_compare password (bcrypt_hash password rounds salt) = Ok true.

(** No two rows of [users] carry the same user name. *)
Definition unique_usernames (w : World) : Prop :=
  NoDup (List.map u_username (users (db w))).

(** The store holds a row with the contents of the cache entry [e]. *)
Definition backed_by_row (w : World) (e : VideoEntry) : Prop :=
  exists row,
    In row (videos (db w)) /\
    v_title row = title e /\ v_description row = description e /\
    v_tags row = tags e /\ v_video_path row = videoPath e.

(** [w'] extends [w]: both tables and the cache of [w] are kept, in
    order, at the front of those of [w']. *)
Definition grows (w w' : World) : Prop :=
  users (db w) `prefix_of` users (db w') /\
  videos (db w) `prefix_of` videos (db w') /\
  loadedData w `prefix_of` loadedData w'.

(** The number of uploads of a trace that were answered 200. *)
Fixpoint successful_uploads (trace : list (Env * Request))
    (answers : list Response) : nat :=
  match trace, answers with
  | (_, UploadVideo _) :: trace', r :: answers' =>
    Nat.add (if status r =? 200 then 1%nat else O)
            (successful_uploads trace' answers')
  | _ :: trace', _ :: answers' => successful_uploads trace' answers'
  | _, _ => O
  end.

(** The dot found by the loop of [path.extname] is a dot. *)
Definition scan_dot_inv (path : string) (st : Path.Scan) : Prop :=
  Path.startDot st = -1 \/
  (0 <= Path.startDot st /\
   String.get (Z.to_nat (Path.startDot st)) path = Some "."%char).

(** Two states of the loop of [path.extname], one on a file name and one
    on that name behind a directory prefix of [off] characters, after the
    same characters of the name were visited. *)
Definition scan_shifted (off : Z) (st st' : Path.Scan) : Prop :=
  Path.matchedSlash st = false /\ Path.matchedSlash st' = false /\
  0 <= Path.end_ st /\ Path.end_ st' = Path.end_ st + off /\
  Path.preDotState st' = Path.preDotState st /\
  Path.startPart st = 0 /\ Path.startPart st' = 0 /\
  ((Path.startDot st = -1 /\ Path.startDot st' = -1) \/
   (0 <= Path.startDot st /\ Path.startDot st' = Path.startDot st + off)).

(** The same once both loops are over. *)
Definition scan_shifted_end (off : Z) (st st' : Path.Scan) : Prop :=
  0 <= Path.end_ st /\ Path.end_ st' = Path.end_ st + off /\
  Path.preDotState st' = Path.preDotState st /\
  Path.startPart st = 0 /\ Path.startPart st' = off /\
  ((Path.startDot st = -1 /\ Path.startDot st' = -1) \/
   (0 <= Path.startDot st /\ Path.startDot st' = Path.startDot st + off)).

(** ** Sample data for running the handlers *)

Definition no_fault : DbOp -> option string := fun _ => None.

Definition fault_at (op : DbOp) (m : string) : DbOp -> option string :=
  fun o => match op, o with
           | GetConnection, GetConnection | SelectVideos, SelectVideos
           | InsertVideo, InsertVideo | SelectUser, SelectUser
           | InsertUser, InsertUser | SelectLogin, SelectLogin
           | Commit, Commit | Close, Close => Some m
           | _, _ => None
           end.

Definition demo_env : Env := mkEnv 1700000000000 no_fault 7 "s4lt".

Definition demo_db : Db :=
  mkDb [mkUserRow 1 "alice" "s4lt$secret123"]
       [mkVideoRow 1 "Intro" "first video" "a,b"
                   "/uploads/1690000000000.mp4"].

Definition demo_files : gmap string Z :=
  {[ "uploads/1690000000000.mp4" := 2048 ]}.

Definition demo_world : World := initial_world demo_db demo_files.

Definition demo_file : FilePart := mkFilePart "clip.mp4" "video/mp4" 10240.

Definition demo_form : UploadForm :=
  mkUploadForm (Some "Demo") (Some "d") (Some "x,y") (Some demo_file).

(** ** A stand-in for bcrypt, used to run the handlers on examples *)

Definition demo_bcrypt : Bcrypt := {|
  bcrypt_hash := fun password _ salt => salt +:+ "$" +:+ password;
  bcrypt_compare := fun password hash =>
    Ok (Js.includes (String "$" password) hash)
|}.

(** A stand-in for the driver: a number is compared and stored as its
    decimal text, any other value that is not a string is refused. *)
Definition demo_driver : Driver := {|
  select_bound := fun v rows =>
    match v with
    | Js.VNumber n =>
      Ok (List.filter
            (fun r => String.eqb (u_username r) (Js.number_toString n)) rows)
    | _ => Throw "NJS-044: bind value is not supported"
    end;
  insert_bound := fun v =>
    match v with
    | Js.VNumber n => Ok (Js.number_toString n)
    | _ => Throw "NJS-044: bind value is not supported"
    end
|}.

(** * Facts about the primitives *)

Example extname_mp4 : Path.extname "clip.MP4" = ".MP4".
Proof. reflexivity. Qed.
Example extname_dotfile : Path.extname ".bashrc" = "".
Proof. reflexivity. Qed.
Example extname_dir : Path.extname "../../etc/passwd.mp4/" = ".mp4".
Proof. reflexivity. Qed.
Example extname_dotdot : Path.extname "a/.." = "".
Proof. reflexivity. Qed.
Example extname_trailing : Path.extname "a.b." = ".".
Proof. reflexivity. Qed.
Example number_toString_ex :
  Js.number_toString 1700000000000 = "1700000000000" /\
  Js.number_toString 0 = "0".
Proof. split; reflexivity. Qed.

Section StringFacts.

Lemma startsWith_spec (p s : string) :
  Js.startsWith p s = true <-> exists post, s = p +:+ post.
Proof.
  revert s. induction p as [|a p IH]; intros s; simpl.
  - split; [intros _; exists s; reflexivity | reflexivity].
  - destruct s as [|b s].
    + split; [discriminate | intros [post E]; discriminate].
    + rewrite andb_true_iff, Ascii.eqb_eq, IH. split.
      * intros [-> [post ->]]. exists post. reflexivity.
      * intros [post E]. injection E as -> ->. split; eauto.
Qed.

Lemma includes_spec (p s : string) :
  Js.includes p s = true <-> exists pre post, s = pre +:+ p +:+ post.
Proof.
  induction s as [|a s IH]; simpl; rewrite orb_true_iff, startsWith_spec.
  - split.
    + intros [[post E] | F]; [| discriminate].
      exists "", post. exact E.
    + intros [pre [post E]]. left.
      destruct pre; [exists post; exact E | discriminate].
  - rewrite IH. split.
    + intros [[post E] | [pre [post E]]].
      * exists "", post. exact E.
      * exists (String a pre), post. simpl. rewrite E. reflexivity.
    + intros [pre [post E]]. destruct pre as [|b pre]; simpl in E.
      * left. exists post. exact E.
      * right. injection E as _ E. exists pre, post. exact E.
Qed.

Lemma contains_char_app (c : ascii) (s t : string) :
  Js.contains_char c (s +:+ t) =
  Js.contains_char c s || Js.contains_char c t.
Proof.
  induction s as [|a s IH]; simpl; [reflexivity|].
  rewrite IH, orb_assoc. reflexivity.
Qed.

Lemma contains_char_get (c : ascii) (s : string) :
  (forall k, String.get k s <> Some c) -> Js.contains_char c s = false.
Proof.
  induction s as [|a s IH]; intros Hk; simpl; [reflexivity|].
  apply orb_false_iff. split.
  - apply Ascii.eqb_neq. intros ->. apply (Hk O). reflexivity.
  - apply IH. intros k. apply (Hk (S k)).
Qed.

Lemma contains_char_uint (c : ascii) (d : Decimal.uint) :
  (N_of_ascii c < 48)%N ->
  Js.contains_char c (NilEmpty.string_of_uint d) = false.
Proof.
  intros Hc.
  assert (Hne : forall a, (48 <= N_of_ascii a)%N -> Ascii.eqb a c = false).
  { intros a Ha. apply Ascii.eqb_neq. intros ->. lia. }
  induction d; cbn [NilEmpty.string_of_uint Js.contains_char];
    [reflexivity | ..];
    rewrite IHd, Hne; try reflexivity; vm_compute; discriminate.
Qed.

Lemma number_toString_no_slash (n : Z) :
  Js.contains_char "/" (Js.number_toString n) = false.
Proof.
  assert (Hu : forall d,
             Js.contains_char "/" (NilZero.string_of_uint d) = false).
  { intros d. destruct d; try reflexivity;
      apply contains_char_uint; vm_compute; reflexivity. }
  unfold Js.number_toString, NilZero.string_of_int.
  destruct (Z.to_int n); [apply Hu|]. simpl. apply Hu.
Qed.

(** A printed number starts with a digit or a minus sign. *)
Lemma number_toString_head (n : Z) :
  exists c rest, Js.number_toString n = String c rest /\ c <> "."%char.
Proof.
  unfold Js.number_toString, NilZero.string_of_int.
  destruct (Z.to_int n) as [d|d].
  - destruct d; simpl; eexists _, _; (split; [reflexivity | discriminate]).
  - eexists _, _. split; [reflexivity | discriminate].
Qed.

End StringFacts.

(** * The extension returned by [path.extname] holds no slash *)

Section PathFacts.

Variable path : string.


Lemma scan_inv_post (n : nat) (st : Path.Scan) :
  scan_inv path n st -> scan_post path st.
Proof.
  unfold scan_inv, scan_post.
  intros [[He Hd] | (_ & _ & Hk & [Hd | Hd])]; auto.
  right; right. split; [lia|]. intros k Hr. apply Hk. lia.
Qed.

Lemma scan_char_inv (i : nat) (code : ascii) (st : Path.Scan) :
  String.get i path = Some code -> code <> "/"%char ->
  scan_inv path (S i) st -> scan_inv path i (Path.scan_char code (Z.of_nat i) st).
Proof.
  intros Hget Hcode Hinv.
  assert (Hi : not_slash path i).
  { unfold not_slash. rewrite Hget. congruence. }
  destruct st as [sd sp e ms pd].
  unfold scan_inv, Path.scan_char in *. simpl in Hinv.
  destruct Hinv as [[-> ->] | (Hlt & Hm & Hk & Hd)].
  - simpl.
    destruct (Ascii.eqb code "."); simpl; right;
      (split; [lia|]); (split; [reflexivity|]);
      (split; [intros k Hr; replace k with i by lia; exact Hi|]);
      [right; lia | left; reflexivity].
  - assert (Hk' : forall k : nat,
               Z.of_nat i <= Z.of_nat k < e -> not_slash path k).
    { intros k Hr. destruct (Nat.eq_dec k i) as [-> | Hne]; [exact Hi|].
      apply Hk. lia. }
    cbn [Path.end_].
    destruct (Z.eqb_spec e (-1)) as [He | He]; [lia|].
    destruct (Ascii.eqb code "."); cbn [Path.startDot];
      destruct (Z.eqb_spec sd (-1)) as [Hsd | Hsd];
      try (cbn [Path.preDotState]; destruct (Z.eqb_spec pd 1));
      simpl; right;
      (split; [lia|]); (split; [exact Hm|]); (split; [exact Hk'|]);
      try (right; lia); try (left; assumption);
      destruct Hd as [Hd | Hd]; (left; assumption) || (right; lia).
Qed.

Lemma scan_establishes_post (n : nat) :
  forall st, scan_inv path n st -> scan_post path (Path.scan path n st).
Proof.
  induction n as [|i IH]; intros st Hinv; simpl.
  - exact (scan_inv_post _ _ Hinv).
  - destruct (String.get i path) as [code|] eqn:Hget;
      [| exact (scan_inv_post _ _ Hinv)].
    destruct (Ascii.eqb_spec code "/") as [-> | Hcode].
    + destruct (Path.matchedSlash st) eqn:Hm; simpl.
      * apply IH. destruct Hinv as [H0 | (_ & Hm' & _)]; [left; exact H0|].
        congruence.
      * apply scan_inv_post in Hinv. destruct st; exact Hinv.
    + apply IH. apply scan_char_inv; assumption.
Qed.

Lemma extname_no_slash :
  Js.contains_char "/" (Path.extname path) = false.
Proof.
  unfold Path.extname.
  pose proof (scan_establishes_post (String.length path) Path.scan0) as Hp.
  set (st := Path.scan path (String.length path) Path.scan0) in *.
  destruct (_ || _) eqn:Hc; [reflexivity|].
  repeat (apply orb_false_iff in Hc; destruct Hc as [Hc ?]).
  destruct Hp as [Hp | [Hp | [Hr Hk]]]; [left; split; reflexivity | lia | lia |].
  unfold Js.slice. apply contains_char_get. intros k.
  destruct (Nat.lt_ge_cases k (Z.to_nat (Path.end_ st - Path.startDot st)))
    as [Hlt | Hge].
  - rewrite substring_correct1 by exact Hlt. apply Hk. lia.
  - rewrite substring_correct2 by exact Hge. discriminate.
Qed.

End PathFacts.

(** * The type gate *)

Section TypeGate.

Lemma fileTypes_test_spec (s : string) :
  Upload.fileTypes_test s = true <->
  exists t pre post, In t allowed_types /\ s = pre +:+ t +:+ post.
Proof.
  unfold Upload.fileTypes_test, allowed_types.
  rewrite !orb_true_iff, !includes_spec. split.
  - intros [[[H | H] | H] | H]; destruct H as [pre [post E]];
      eexists _, pre, post; (split; [|exact E]); simpl; tauto.
  - intros (t & pre & post & Hin & E). simpl in Hin.
    destruct Hin as [<- | [<- | [<- | [<- | []]]]]; eauto 7.
Qed.

Lemma fileFilter_total (f : FilePart) :
  Upload.fileFilter f = Ok true \/
  Upload.fileFilter f = Throw "Only video files are allowed!".
Proof. unfold Upload.fileFilter. destruct (_ && _); auto. Qed.

(** What the filter tests: it lets a file through exactly when the
    lower-cased extension of its name and its declared MIME type each
    contain one of [mp4], [mov], [avi], [mkv] somewhere; a file for which
    only one of the two does, or neither, is refused with the error
    "Only video files are allowed!". *)
Lemma fileFilter_accepts_iff (f : FilePart) :
  (Upload.fileFilter f = Ok true <->
   (exists t pre post,
       In t allowed_types /\
       Js.toLowerCase (Path.extname (originalname f)) = pre +:+ t +:+ post) /\
   (exists t pre post,
       In t allowed_types /\ mimetype f = pre +:+ t +:+ post)) /\
  (Upload.fileFilter f <> Ok true ->
   Upload.fileFilter f = Throw "Only video files are allowed!").
Proof.
  split.
  - rewrite <- !fileTypes_test_spec, <- andb_true_iff.
    unfold Upload.fileFilter. destruct (_ && _); split;
      congruence || reflexivity.
  - destruct (fileFilter_total f); tauto.
Qed.

(** C2: the filter does not keep to the set. A file named [clip.mp4x]
    declared as [text/x-mp4-notes] has neither its extension nor its MIME
    type in [{mp4, mov, avi, mkv}], and the filter, whose pattern
    [/mp4|mov|avi|mkv/] is not anchored, lets it through, against its own
    message "Only video files are allowed!". *)
Theorem fileFilter_accepts_outside_exact_set :
  Upload.fileFilter (mkFilePart "clip.mp4x" "text/x-mp4-notes" 1024) = Ok true /\
  exact_extension_allowed "clip.mp4x" = false /\
  exact_mimetype_allowed "text/x-mp4-notes" = false /\
  exact_type_gate (mkFilePart "clip.mp4x" "text/x-mp4-notes" 1024) = false.
Proof. repeat split; vm_compute; reflexivity. Qed.

Example fileFilter_mp4 :
  Upload.fileFilter (mkFilePart "clip.MP4" "video/mp4" 10240) = Ok true.
Proof. reflexivity. Qed.

Example fileFilter_extension_only :
  Upload.fileFilter (mkFilePart "clip.mp4" "image/png" 10240) =
  Throw "Only video files are allowed!".
Proof. reflexivity. Qed.

Example fileFilter_mimetype_only :
  Upload.fileFilter (mkFilePart "clip.txt" "video/mp4" 10240) =
  Throw "Only video files are allowed!".
Proof. reflexivity. Qed.

Example fileFilter_quicktime :
  Upload.fileFilter (mkFilePart "clip.mov" "video/quicktime" 10240) =
  Throw "Only video files are allowed!".
Proof. reflexivity. Qed.

End TypeGate.

(** * The upload middleware *)

Section Middleware.

Variable env : Env.

Lemma provided_file_inv (form : UploadForm) (f : FilePart) :
  provided_file form = Some f ->
  form_videoFile form = Some f /\ String.eqb (originalname f) "" = false.
Proof.
  unfold provided_file. destruct (form_videoFile form) as [g|]; [|discriminate].
  destruct (String.eqb (originalname g) "") eqn:E; [discriminate|].
  intros [= ->]. auto.
Qed.

Lemma single_no_file (form : UploadForm) (w : World) :
  provided_file form = None ->
  Upload.single env form w =
  (w, Ok (mkUploadReq (form_title form) (form_description form)
            (form_tags form) None)).
Proof.
  unfold provided_file, Upload.single.
  destruct (form_videoFile form) as [g|]; [|reflexivity].
  destruct (String.eqb (originalname g) ""); [reflexivity | discriminate].
Qed.

Lemma single_refused (form : UploadForm) (w : World) (f : FilePart) (m : string) :
  provided_file form = Some f -> Upload.fileFilter f = Throw m ->
  Upload.single env form w = (w, Throw m).
Proof.
  intros [Hf Hn]%provided_file_inv Hfilter. unfold Upload.single.
  rewrite Hf, Hn. unfold bind, Upload.call_fileFilter. rewrite Hfilter.
  reflexivity.
Qed.

Lemma single_too_large (form : UploadForm) (w : World) (f : FilePart) :
  provided_file form = Some f -> Upload.fileFilter f = Ok true ->
  Upload.fileSize < size f ->
  Upload.single env form w =
  (without_file ("uploads/" +:+ Upload.storage_filename env f)
     (with_file ("uploads/" +:+ Upload.storage_filename env f)
        Upload.fileSize w),
   Throw "File too large").
Proof.
  intros [Hf Hn]%provided_file_inv Hfilter Hsize. unfold Upload.single.
  rewrite Hf, Hn. unfold bind, Upload.call_fileFilter. rewrite Hfilter.
  cbn [ret negb]. unfold Upload.over_limit.
  apply Z.ltb_lt in Hsize. rewrite Hsize. reflexivity.
Qed.

Lemma single_stored (form : UploadForm) (w : World) (f : FilePart) :
  provided_file form = Some f -> Upload.fileFilter f = Ok true ->
  size f <= Upload.fileSize ->
  Upload.single env form w =
  (with_file ("uploads/" +:+ Upload.storage_filename env f) (size f) w,
   Ok (mkUploadReq (form_title form) (form_description form) (form_tags form)
         (Some (mkStoredFile (Upload.storage_filename env f)
                  ("uploads/" +:+ Upload.storage_filename env f)
                  (size f))))).
Proof.
  intros [Hf Hn]%provided_file_inv Hfilter Hsize. unfold Upload.single.
  rewrite Hf, Hn. unfold bind, Upload.call_fileFilter. rewrite Hfilter.
  cbn [ret negb]. unfold Upload.over_limit.
  apply Z.ltb_ge in Hsize. rewrite Hsize. reflexivity.
Qed.

(** Every way the middleware can end. *)
Lemma single_outcomes (form : UploadForm) (w : World) :
  (provided_file form = None /\
   Upload.single env form w =
   (w, Ok (mkUploadReq (form_title form) (form_description form)
             (form_tags form) None))) \/
  (exists f, provided_file form = Some f /\
     ((Upload.fileFilter f = Throw "Only video files are allowed!" /\
       Upload.single env form w = (w, Throw "Only video files are allowed!")) \/
      (Upload.fileFilter f = Ok true /\ Upload.fileSize < size f /\
       Upload.single env form w =
       (without_file ("uploads/" +:+ Upload.storage_filename env f)
          (with_file ("uploads/" +:+ Upload.storage_filename env f)
             Upload.fileSize w),
        Throw "File too large")) \/
      (Upload.fileFilter f = Ok true /\ size f <= Upload.fileSize /\
       Upload.single env form w =
       (with_file ("uploads/" +:+ Upload.storage_filename env f) (size f) w,
        Ok (mkUploadReq (form_title form) (form_description form)
              (form_tags form)
              (Some (mkStoredFile (Upload.storage_filename env f)
                       ("uploads/" +:+ Upload.storage_filename env f)
                       (size f)))))))).
Proof.
  destruct (provided_file form) as [f|] eqn:Hp.
  - right. exists f. split; [reflexivity|].
    destruct (fileFilter_total f) as [Hok | Hno].
    + destruct (Z.lt_ge_cases Upload.fileSize (size f)).
      * right; left. repeat split; try assumption.
        apply single_too_large; assumption.
      * right; right. repeat split; try assumption.
        apply single_stored; assumption.
    + left. split; [assumption|]. apply (single_refused _ _ f); assumption.
  - left. split; [reflexivity|]. apply single_no_file; assumption.
Qed.

End Middleware.

(** * The upload route *)

Section UploadRoute.

Variable env : Env.

Lemma truthy_path (sf : StoredFile) :
  Js.truthy (Some ("/uploads/" +:+ filename sf)) = true.
Proof. reflexivity. Qed.

Lemma handler_missing (req : UploadReq) (w : World) :
  Js.truthy (body_title req) = false \/
  Js.truthy (body_description req) = false \/
  Js.truthy (body_tags req) = false \/
  file req = None ->
  upload_video_handler env req w = (w, missing_fields).
Proof.
  intros Hmiss. unfold upload_video_handler.
  destruct (_ || _) eqn:Hc; [reflexivity|]. exfalso.
  repeat (apply orb_false_iff in Hc; destruct Hc as [Hc ?]).
  destruct (file req); [|discriminate].
  destruct Hmiss as [E | [E | [E | E]]]; try discriminate;
    rewrite E in *; discriminate.
Qed.

(** The handler on a complete request, fault by fault. *)
Lemma handler_complete (req : UploadReq) (w : World) (sf : StoredFile) :
  Js.truthy (body_title req) = true ->
  Js.truthy (body_description req) = true ->
  Js.truthy (body_tags req) = true ->
  file req = Some sf ->
  upload_video_handler env req w =
  match fault env GetConnection, fault env InsertVideo,
        fault env Commit, fault env Close with
  | Some m, _, _, _ | None, Some m, _, _ | None, None, Some m, _ =>
    (w, database_error m)
  | None, None, None, Some m =>
    (with_video
       (mkVideoRow (new_id env) (Js.text (body_title req))
          (Js.text (body_description req)) (Js.text (body_tags req))
          ("/uploads/" +:+ filename sf)) w,
     database_error m)
  | None, None, None, None =>
    (with_entry
       (mkEntry None (Js.text (body_title req))
          (Js.text (body_description req)) (Js.text (body_tags req))
          ("/uploads/" +:+ filename sf))
       (with_video
          (mkVideoRow (new_id env) (Js.text (body_title req))
             (Js.text (body_description req)) (Js.text (body_tags req))
             ("/uploads/" +:+ filename sf)) w),
     upload_success ("/uploads/" +:+ filename sf))
  end.
Proof.
  intros Ht Hd Hg Hf. unfold upload_video_handler.
  rewrite Ht, Hd, Hg, Hf, truthy_path. cbn [negb orb].
  unfold try_catch, bind, getConnection, insert_video, commit, close, guard,
    get_db, set_db, push_loadedData, ret, throw, with_entry, with_video.
  destruct (fault env GetConnection); [reflexivity|].
  destruct (fault env InsertVideo); [reflexivity|].
  destruct (fault env Commit); [reflexivity|].
  destruct (fault env Close); cbn; rewrite app_nil_r; reflexivity.
Qed.

(** The route on a form whose file passed the middleware. *)
Lemma post_upload_video_stored (form : UploadForm) (w : World) (f : FilePart) :
  provided_file form = Some f -> Upload.fileFilter f = Ok true ->
  size f <= Upload.fileSize ->
  post_upload_video env form w =
  upload_video_handler env
    (mkUploadReq (form_title form) (form_description form) (form_tags form)
       (Some (mkStoredFile (Upload.storage_filename env f)
                ("uploads/" +:+ Upload.storage_filename env f) (size f))))
    (with_file ("uploads/" +:+ Upload.storage_filename env f) (size f) w).
Proof.
  intros Hp Hf Hs. unfold post_upload_video.
  rewrite (single_stored env form w f Hp Hf Hs). reflexivity.
Qed.

Lemma post_upload_video_no_file (form : UploadForm) (w : World) :
  provided_file form = None ->
  post_upload_video env form w = (w, missing_fields).
Proof.
  intros Hp. unfold post_upload_video. rewrite (single_no_file env form w Hp).
  apply handler_missing. simpl. auto.
Qed.

(** A run of the route either leaves [loadedData] alone and answers with
    an error status, or it is the complete run: file stored, row
    committed, entry appended, answer 200. *)
Lemma post_upload_video_outcomes (form : UploadForm) (w : World) :
  (loadedData (fst (post_upload_video env form w)) = loadedData w /\
   status (snd (post_upload_video env form w)) <> 200) \/
  (exists f,
      provided_file form = Some f /\ Upload.fileFilter f = Ok true /\
      size f <= Upload.fileSize /\
      Js.truthy (form_title form) = true /\
      Js.truthy (form_description form) = true /\
      Js.truthy (form_tags form) = true /\
      fault env GetConnection = None /\ fault env InsertVideo = None /\
      fault env Commit = None /\ fault env Close = None /\
      post_upload_video env form w =
      (with_entry
         (mkEntry None (Js.text (form_title form))
            (Js.text (form_description form)) (Js.text (form_tags form))
            ("/uploads/" +:+ Upload.storage_filename env f))
         (with_video
            (mkVideoRow (new_id env) (Js.text (form_title form))
               (Js.text (form_description form)) (Js.text (form_tags form))
               ("/uploads/" +:+ Upload.storage_filename env f))
            (with_file ("uploads/" +:+ Upload.storage_filename env f)
               (size f) w)),
       upload_success ("/uploads/" +:+ Upload.storage_filename env f))).
Proof.
  destruct (single_outcomes env form w)
    as [[Hp E] | (f & Hp & [[Hf E] | [(Hf & Hs & E) | (Hf & Hs & E)]])].
  - left. rewrite (post_upload_video_no_file form w Hp). simpl.
    split; [reflexivity | discriminate].
  - left. unfold post_upload_video. rewrite E. simpl.
    split; [reflexivity | discriminate].
  - left. unfold post_upload_video. rewrite E. simpl.
    split; [reflexivity | discriminate].
  - rewrite (post_upload_video_stored form w f Hp Hf Hs).
    destruct (Js.truthy (form_title form)) eqn:Ht;
      [| left; rewrite handler_missing by (simpl; auto); simpl;
         split; [reflexivity | discriminate]].
    destruct (Js.truthy (form_description form)) eqn:Hd;
      [| left; rewrite handler_missing by (simpl; auto); simpl;
         split; [reflexivity | discriminate]].
    destruct (Js.truthy (form_tags form)) eqn:Hg;
      [| left; rewrite handler_missing by (simpl; auto); simpl;
         split; [reflexivity | discriminate]].
    rewrite (handler_complete
               (mkUploadReq (form_title form) (form_description form)
                  (form_tags form) (Some _)) _ _ Ht Hd Hg eq_refl).
    destruct (fault env GetConnection) eqn:F1;
      [left; simpl; split; [reflexivity | discriminate]|].
    destruct (fault env InsertVideo) eqn:F2;
      [left; simpl; split; [reflexivity | discriminate]|].
    destruct (fault env Commit) eqn:F3;
      [left; simpl; split; [reflexivity | discriminate]|].
    destruct (fault env Close) eqn:F4;
      [left; simpl; split; [reflexivity | discriminate]|].
    right. exists f. simpl. repeat split; assumption || reflexivity.
Qed.

End UploadRoute.

(** * The size gate *)

(** C8: for a file the type gate lets through, the middleware fails with
    multer's "File too large" exactly when the size of the file exceeds
    [200 * 1024 * 1024] bytes; the route then answers with that error. A
    file of exactly that size is stored, a file one byte longer is not. *)
Theorem size_gate_boundary (env : Env) (form : UploadForm) (w : World)
    (f : FilePart) :
  provided_file form = Some f -> Upload.fileFilter f = Ok true ->
  Upload.fileSize = 209715200 /\
  (snd (Upload.single env form w) = Throw "File too large" <->
   200 * 1024 * 1024 < size f) /\
  (200 * 1024 * 1024 < size f ->
   snd (post_upload_video env form w) = error_middleware "File too large") /\
  (size f = 200 * 1024 * 1024 ->
   exists sf, file_size sf = size f /\
     snd (Upload.single env form w) =
     Ok (mkUploadReq (form_title form) (form_description form)
           (form_tags form) (Some sf))) /\
  (size f = 200 * 1024 * 1024 + 1 ->
   snd (Upload.single env form w) = Throw "File too large").
Proof.
  intros Hp Hf.
  assert (Hover : 200 * 1024 * 1024 < size f ->
                  snd (Upload.single env form w) = Throw "File too large").
  { intros Hs. rewrite (single_too_large env form w f Hp Hf Hs). reflexivity. }
  split; [reflexivity|]. split; [|split; [|split]].
  - split; [|exact Hover]. intros E.
    destruct (Z.lt_ge_cases (200 * 1024 * 1024) (size f)) as [Hs | Hs];
      [exact Hs|].
    rewrite (single_stored env form w f Hp Hf Hs) in E. discriminate.
  - intros Hs. unfold post_upload_video.
    rewrite (single_too_large env form w f Hp Hf Hs). reflexivity.
  - intros Hs.
    assert (Hle : size f <= Upload.fileSize)
      by (rewrite Hs; unfold Upload.fileSize; lia).
    rewrite (single_stored env form w f Hp Hf Hle).
    exists (mkStoredFile (Upload.storage_filename env f)
              ("uploads/" +:+ Upload.storage_filename env f) (size f)).
    split; reflexivity.
  - intros Hs. apply Hover. lia.
Qed.

Lemma size_gate_boundary_witness :
  snd (Upload.single demo_env
         (mkUploadForm (Some "Demo") (Some "d") (Some "x,y")
            (Some (mkFilePart "clip.mp4" "video/mp4" 209715201)))
         demo_world) = Throw "File too large" <->
  200 * 1024 * 1024 < 209715201.
Proof.
  apply (size_gate_boundary demo_env
           (mkUploadForm (Some "Demo") (Some "d") (Some "x,y")
              (Some (mkFilePart "clip.mp4" "video/mp4" 209715201)))
           demo_world (mkFilePart "clip.mp4" "video/mp4" 209715201));
    reflexivity.
Defined.

Example size_gate_at_ceiling :
  exists sf,
    snd (Upload.single demo_env
           (mkUploadForm (Some "Demo") (Some "d") (Some "x,y")
              (Some (mkFilePart "clip.mp4" "video/mp4" 209715200)))
           demo_world) =
    Ok (mkUploadReq (Some "Demo") (Some "d") (Some "x,y") (Some sf)).
Proof. eexists. reflexivity. Qed.

(** * The name and the path of a stored file *)

Lemma storage_filename_no_slash (env : Env) (f : FilePart) :
  Js.contains_char "/" (Upload.storage_filename env f) = false.
Proof.
  unfold Upload.storage_filename.
  rewrite contains_char_app, number_toString_no_slash, extname_no_slash.
  reflexivity.
Qed.

Lemma storage_filename_not_dots (env : Env) (f : FilePart) :
  Upload.storage_filename env f <> "." /\
  Upload.storage_filename env f <> "..".
Proof.
  unfold Upload.storage_filename.
  destruct (number_toString_head (now env)) as (c & rest & -> & Hc).
  simpl. split; intros [= E _]; congruence.
Qed.

(** What the handler adds to the store and to the cache refers to the
    stored file by ["/uploads/"] followed by its name. *)
Lemma handler_records (env : Env) (req : UploadReq) (w : World)
    (sf : StoredFile) :
  file req = Some sf ->
  (forall row,
      In row (videos (db (fst (upload_video_handler env req w)))) ->
      In row (videos (db w)) \/
      v_video_path row = "/uploads/" +:+ filename sf) /\
  (forall e,
      In e (loadedData (fst (upload_video_handler env req w))) ->
      In e (loadedData w) \/
      videoPath e = "/uploads/" +:+ filename sf) /\
  (forall m v,
      body (snd (upload_video_handler env req w)) = JObject m ->
      In ("videoPath", v) m -> v = "/uploads/" +:+ filename sf).
Proof.
  intros Hf.
  destruct (Js.truthy (body_title req)) eqn:Ht;
    [| rewrite handler_missing by auto; simpl; repeat split; auto;
       intros m v [= <-] [[=] | []]].
  destruct (Js.truthy (body_description req)) eqn:Hd;
    [| rewrite handler_missing by auto; simpl; repeat split; auto;
       intros m v [= <-] [[=] | []]].
  destruct (Js.truthy (body_tags req)) eqn:Hg;
    [| rewrite handler_missing by auto; simpl; repeat split; auto;
       intros m v [= <-] [[=] | []]].
  rewrite (handler_complete env req w sf Ht Hd Hg Hf).
  destruct (fault env GetConnection);
    [simpl; repeat split; auto; intros m v [= <-] [[=] | [[=] | []]]|].
  destruct (fault env InsertVideo);
    [simpl; repeat split; auto; intros m v [= <-] [[=] | [[=] | []]]|].
  destruct (fault env Commit);
    [simpl; repeat split; auto; intros m v [= <-] [[=] | [[=] | []]]|].
  destruct (fault env Close); simpl; repeat split; auto.
  - intros row [Hin | [<- | []]]%in_app_iff; auto.
  - intros m v [= <-] [[=] | [[=] | []]].
  - intros row [Hin | [<- | []]]%in_app_iff; auto.
  - intros e [Hin | [<- | []]]%in_app_iff; auto.
  - intros m v [= <-] [[=] | [[= <-] | []]]. reflexivity.
Qed.

(** C7: the file the middleware stores is named by the decimal timestamp
    followed by [path.extname] of the declared file name, and nothing else
    of that name; the name holds no slash and is neither [.] nor [..]; the
    file is written at ["uploads/"] followed by the name, and the
    [videoPath] the handler records in the store, in the cache and in its
    answer is ["/uploads/"] followed by the name: nothing it records has
    another path, and on a request with its three fields it does record
    it, the row as soon as the commit went through, the cache entry and
    the answer when the close did as well. *)
Theorem stored_name_confined (env : Env) (form : UploadForm) (w w1 : World)
    (req : UploadReq) (sf : StoredFile) :
  Upload.single env form w = (w1, Ok req) -> file req = Some sf ->
  exists f,
    provided_file form = Some f /\
    filename sf =
      Js.number_toString (now env) +:+ Path.extname (originalname f) /\
    (forall g, Path.extname (originalname g) = Path.extname (originalname f) ->
               Upload.storage_filename env g = filename sf) /\
    Js.contains_char "/" (filename sf) = false /\
    filename sf <> "." /\ filename sf <> ".." /\
    file_path sf = "uploads/" +:+ filename sf /\
    disk w1 = <[file_path sf := size f]> (disk w) /\
    (forall row,
        In row (videos (db (fst (upload_video_handler env req w1)))) ->
        In row (videos (db w)) \/
        v_video_path row = "/uploads/" +:+ filename sf) /\
    (forall e,
        In e (loadedData (fst (upload_video_handler env req w1))) ->
        In e (loadedData w) \/ videoPath e = "/uploads/" +:+ filename sf) /\
    (forall m v,
        body (snd (upload_video_handler env req w1)) = JObject m ->
        In ("videoPath", v) m -> v = "/uploads/" +:+ filename sf) /\
    (Js.truthy (body_title req) = true ->
     Js.truthy (body_description req) = true ->
     Js.truthy (body_tags req) = true ->
     upload_video_handler env req w1 =
     match fault env GetConnection, fault env InsertVideo,
           fault env Commit, fault env Close with
     | Some m, _, _, _ | None, Some m, _, _ | None, None, Some m, _ =>
       (w1, database_error m)
     | None, None, None, Some m =>
       (with_video
          (mkVideoRow (new_id env) (Js.text (body_title req))
             (Js.text (body_description req)) (Js.text (body_tags req))
             ("/uploads/" +:+ filename sf)) w1,
        database_error m)
     | None, None, None, None =>
       (with_entry
          (mkEntry None (Js.text (body_title req))
             (Js.text (body_description req)) (Js.text (body_tags req))
             ("/uploads/" +:+ filename sf))
          (with_video
             (mkVideoRow (new_id env) (Js.text (body_title req))
                (Js.text (body_description req)) (Js.text (body_tags req))
                ("/uploads/" +:+ filename sf)) w1),
        upload_success ("/uploads/" +:+ filename sf))
     end).
Proof.
  intros E Hsf.
  destruct (single_outcomes env form w)
    as [[Hp E'] | (f & Hp & [[Hf E'] | [(Hf & Hs & E') | (Hf & Hs & E')]])];
    rewrite E' in E; try discriminate.
  - injection E as <- <-. discriminate.
  - injection E as <- <-. simpl in Hsf. injection Hsf as <-.
    exists f. cbn [filename file_path].
    destruct (storage_filename_not_dots env f) as [Hd1 Hd2].
    pose proof (handler_records env
      (mkUploadReq (form_title form) (form_description form) (form_tags form)
         (Some (mkStoredFile (Upload.storage_filename env f)
                  ("uploads/" +:+ Upload.storage_filename env f) (size f))))
      (with_file ("uploads/" +:+ Upload.storage_filename env f) (size f) w)
      _ eq_refl) as (Hr & He & Hm).
    split; [exact Hp|]. split; [reflexivity|].
    split; [intros g Hg; unfold Upload.storage_filename; rewrite Hg;
            reflexivity|].
    split; [apply storage_filename_no_slash|].
    split; [exact Hd1|]. split; [exact Hd2|].
    split; [reflexivity|]. split; [reflexivity|].
    split; [exact Hr|]. split; [exact He|]. split; [exact Hm|].
    intros Ht Hd Hg.
    exact (handler_complete env _ _ _ Ht Hd Hg eq_refl).
Qed.

Lemma stored_name_confined_witness :
  exists f,
    provided_file
      (mkUploadForm (Some "Demo") (Some "d") (Some "x,y")
         (Some (mkFilePart "../../etc/cron.d/clip.mp4" "video/mp4" 10240)))
    = Some f /\
    "1700000000000.mp4" =
      Js.number_toString (now demo_env) +:+ Path.extname (originalname f) /\
    upload_video_handler demo_env
      (mkUploadReq (Some "Demo") (Some "d") (Some "x,y")
         (Some (mkStoredFile "1700000000000.mp4"
                  "uploads/1700000000000.mp4" 10240)))
      (with_file "uploads/1700000000000.mp4" 10240 demo_world) =
    (with_entry
       (mkEntry None "Demo" "d" "x,y" "/uploads/1700000000000.mp4")
       (with_video
          (mkVideoRow 7 "Demo" "d" "x,y" "/uploads/1700000000000.mp4")
          (with_file "uploads/1700000000000.mp4" 10240 demo_world)),
     upload_success "/uploads/1700000000000.mp4").
Proof.
  destruct (stored_name_confined demo_env
              (mkUploadForm (Some "Demo") (Some "d") (Some "x,y")
                 (Some (mkFilePart "../../etc/cron.d/clip.mp4" "video/mp4"
                          10240)))
              demo_world
              (with_file "uploads/1700000000000.mp4" 10240 demo_world)
              (mkUploadReq (Some "Demo") (Some "d") (Some "x,y")
                 (Some (mkStoredFile "1700000000000.mp4"
                          "uploads/1700000000000.mp4" 10240)))
              (mkStoredFile "1700000000000.mp4"
                 "uploads/1700000000000.mp4" 10240)
              eq_refl eq_refl)
    as (f & Hp & Hname & _ & _ & _ & _ & _ & _ & _ & _ & _ & Hrec).
  exists f. split; [exact Hp|]. split; [exact Hname|].
  exact (Hrec eq_refl eq_refl eq_refl).
Defined.

(** * The required-field gate, the store and the cache *)

(** C3: when the file of a form (if it carries one) passes the type and
    size gates and the title, the description, the tags or the file is
    missing or empty, the route answers 400 with the missing-fields
    message, the store and the cache are as before, and a file that was
    provided has nevertheless been written to the upload directory, where
    it stays. *)
Theorem upload_missing_fields_orphan (env : Env) (form : UploadForm)
    (w : World) :
  (forall f, provided_file form = Some f ->
             Upload.fileFilter f = Ok true /\ size f <= Upload.fileSize) ->
  Js.truthy (form_title form) = false \/
  Js.truthy (form_description form) = false \/
  Js.truthy (form_tags form) = false \/
  provided_file form = None ->
  snd (post_upload_video env form w) = missing_fields /\
  status (snd (post_upload_video env form w)) = 400 /\
  db (fst (post_upload_video env form w)) = db w /\
  loadedData (fst (post_upload_video env form w)) = loadedData w /\
  (provided_file form = None ->
   disk (fst (post_upload_video env form w)) = disk w) /\
  (forall f, provided_file form = Some f ->
     disk (fst (post_upload_video env form w)) =
       <["uploads/" +:+ Upload.storage_filename env f := size f]> (disk w) /\
     disk (fst (post_upload_video env form w))
       !! ("uploads/" +:+ Upload.storage_filename env f) = Some (size f)).
Proof.
  intros Hgates Hmiss.
  destruct (provided_file form) as [f|] eqn:Hp.
  - destruct (Hgates f eq_refl) as [Hf Hs].
    rewrite (post_upload_video_stored env form w f Hp Hf Hs).
    rewrite handler_missing
      by (simpl; destruct Hmiss as [?|[?|[?|?]]]; auto; discriminate).
    cbn [fst snd with_file db disk loadedData].
    do 4 (split; [reflexivity|]). split; [discriminate|].
    intros g [= <-]. split; [reflexivity | apply lookup_insert_eq].
  - rewrite (post_upload_video_no_file env form w Hp).
    cbn [fst snd]. do 5 (split; [reflexivity|]). discriminate.
Qed.

Lemma upload_missing_fields_orphan_witness :
  snd (post_upload_video demo_env
         (mkUploadForm None (Some "d") (Some "x,y") (Some demo_file))
         demo_world) = missing_fields /\
  disk (fst (post_upload_video demo_env
               (mkUploadForm None (Some "d") (Some "x,y") (Some demo_file))
               demo_world))
    !! "uploads/1700000000000.mp4" = Some 10240.
Proof.
  destruct (upload_missing_fields_orphan demo_env
              (mkUploadForm None (Some "d") (Some "x,y") (Some demo_file))
              demo_world) as (Hr & _ & _ & _ & _ & Hdisk).
  - intros f [= <-]. split; [reflexivity | vm_compute; discriminate].
  - left. reflexivity.
  - split; [exact Hr|]. exact (proj2 (Hdisk demo_file eq_refl)).
Defined.

(** The runs answered with 200 are the complete ones. *)
Lemma upload_200_inv (env : Env) (form : UploadForm) (w : World) :
  status (snd (post_upload_video env form w)) = 200 ->
  exists f,
    provided_file form = Some f /\ Upload.fileFilter f = Ok true /\
    size f <= Upload.fileSize /\
    Js.truthy (form_title form) = true /\
    Js.truthy (form_description form) = true /\
    Js.truthy (form_tags form) = true /\
    fault env GetConnection = None /\ fault env InsertVideo = None /\
    fault env Commit = None /\ fault env Close = None.
Proof.
  intros H200.
  destruct (post_upload_video_outcomes env form w) as [[_ Hne] | (f & Hall)];
    [contradiction|].
  exists f. tauto.
Qed.

(** C6, as the code has it: when all gates pass and the whole insert
    goes through (connection, insert, commit and close without error; by
    [upload_200_inv] these are the runs answered 200), the last element of
    the cache has the title, description and tags of the form and the
    [videoPath] of the stored file, and the answer is the success message
    with that same [videoPath]. *)
Theorem upload_success_cache_last (env : Env) (form : UploadForm) (w : World)
    (f : FilePart) :
  provided_file form = Some f -> Upload.fileFilter f = Ok true ->
  size f <= Upload.fileSize ->
  Js.truthy (form_title form) = true ->
  Js.truthy (form_description form) = true ->
  Js.truthy (form_tags form) = true ->
  fault env GetConnection = None -> fault env InsertVideo = None ->
  fault env Commit = None -> fault env Close = None ->
  exists e,
    last (loadedData (fst (post_upload_video env form w))) = Some e /\
    loadedData (fst (post_upload_video env form w)) = loadedData w ++ [e] /\
    Some (title e) = form_title form /\
    Some (description e) = form_description form /\
    Some (tags e) = form_tags form /\
    videoPath e = "/uploads/" +:+ Upload.storage_filename env f /\
    snd (post_upload_video env form w) = upload_success (videoPath e) /\
    status (snd (post_upload_video env form w)) = 200.
Proof.
  intros Hp Hf Hs Ht Hd Hg F1 F2 F3 F4.
  rewrite (post_upload_video_stored env form w f Hp Hf Hs).
  rewrite (handler_complete env
             (mkUploadReq (form_title form) (form_description form)
                (form_tags form) (Some _)) _ _ Ht Hd Hg eq_refl).
  rewrite F1, F2, F3, F4. cbn [fst snd with_entry loadedData with_video with_file].
  eexists. split; [apply last_snoc|]. split; [reflexivity|].
  cbn [title description tags videoPath body_title body_description body_tags].
  destruct (form_title form), (form_description form), (form_tags form);
    try discriminate.
  repeat split; reflexivity.
Qed.

Lemma upload_success_cache_last_witness :
  exists e,
    last (loadedData (fst (post_upload_video demo_env demo_form demo_world)))
      = Some e /\
    title e = "Demo" /\ description e = "d" /\ tags e = "x,y" /\
    videoPath e = "/uploads/1700000000000.mp4" /\
    snd (post_upload_video demo_env demo_form demo_world) =
      upload_success "/uploads/1700000000000.mp4".
Proof.
  destruct (upload_success_cache_last demo_env demo_form demo_world demo_file)
    as (e & Hlast & _ & Ht & Hd & Hg & Hv & Hr & _);
    try reflexivity; [vm_compute; discriminate|].
  exists e. injection Ht as Ht. injection Hd as Hd. injection Hg as Hg.
  rewrite Hv in Hr. repeat split; assumption.
Defined.

(** C6, as stated, fails: the gates pass, the insert and the commit go
    through and the row is in the store, but [connection.close()] throws:
    the answer is 500 and nothing was appended to the cache, whose last
    element is not the uploaded video. *)
Lemma upload_inserted_cache_not_appended :
  provided_file demo_form = Some demo_file /\
  Upload.fileFilter demo_file = Ok true /\
  size demo_file <= Upload.fileSize /\
  fault (mkEnv 1700000000000 (fault_at Close "DPI-1010: not connected")
               7 "s4lt") InsertVideo = None /\
  fault (mkEnv 1700000000000 (fault_at Close "DPI-1010: not connected")
               7 "s4lt") Commit = None /\
  videos (db (fst (post_upload_video
                     (mkEnv 1700000000000
                        (fault_at Close "DPI-1010: not connected") 7 "s4lt")
                     demo_form demo_world))) =
    videos (db demo_world) ++
    [mkVideoRow 7 "Demo" "d" "x,y" "/uploads/1700000000000.mp4"] /\
  loadedData (fst (post_upload_video
                     (mkEnv 1700000000000
                        (fault_at Close "DPI-1010: not connected") 7 "s4lt")
                     demo_form demo_world)) = loadedData demo_world /\
  last (loadedData (fst (post_upload_video
                           (mkEnv 1700000000000
                              (fault_at Close "DPI-1010: not connected")
                              7 "s4lt")
                           demo_form demo_world))) <>
    Some (mkEntry None "Demo" "d" "x,y" "/uploads/1700000000000.mp4") /\
  status (snd (post_upload_video
                 (mkEnv 1700000000000
                    (fault_at Close "DPI-1010: not connected") 7 "s4lt")
                 demo_form demo_world)) = 500.
Proof.
  repeat split; try (vm_compute; reflexivity); vm_compute; discriminate.
Qed.

(** C10: on a complete form, when obtaining the connection, the insert or
    the commit fails, the route answers 500 with the database-error
    message carrying the driver's message, and the cache and the store
    are as before. Whenever a run changes the cache, the insert and the
    commit went through and the committed row is in the store. *)
Theorem upload_store_failure_keeps_cache (env : Env) (form : UploadForm)
    (w : World) (f : FilePart) :
  provided_file form = Some f -> Upload.fileFilter f = Ok true ->
  size f <= Upload.fileSize ->
  Js.truthy (form_title form) = true ->
  Js.truthy (form_description form) = true ->
  Js.truthy (form_tags form) = true ->
  (fault env GetConnection <> None \/ fault env InsertVideo <> None \/
   fault env Commit <> None ->
   loadedData (fst (post_upload_video env form w)) = loadedData w /\
   db (fst (post_upload_video env form w)) = db w /\
   status (snd (post_upload_video env form w)) = 500 /\
   exists m,
     snd (post_upload_video env form w) = database_error m /\
     (fault env GetConnection = Some m \/ fault env InsertVideo = Some m \/
      fault env Commit = Some m)) /\
  (loadedData (fst (post_upload_video env form w)) <> loadedData w ->
   fault env GetConnection = None /\ fault env InsertVideo = None /\
   fault env Commit = None /\
   In (mkVideoRow (new_id env) (Js.text (form_title form))
         (Js.text (form_description form)) (Js.text (form_tags form))
         ("/uploads/" +:+ Upload.storage_filename env f))
      (videos (db (fst (post_upload_video env form w))))).
Proof.
  intros Hp Hf Hs Ht Hd Hg.
  rewrite (post_upload_video_stored env form w f Hp Hf Hs).
  rewrite (handler_complete env
             (mkUploadReq (form_title form) (form_description form)
                (form_tags form) (Some _)) _ _ Ht Hd Hg eq_refl).
  cbn [body_title body_description body_tags filename].
  destruct (fault env GetConnection) as [m1|];
    [| destruct (fault env InsertVideo) as [m2|];
       [| destruct (fault env Commit) as [m3|] ] ].
  1-3: split; [intros _ | intros Hch; exfalso; apply Hch; reflexivity];
       cbn; repeat split; eauto.
  split; [intros [? | [? | ?]]; congruence|]. intros _.
  repeat split.
  destruct (fault env Close); cbn; apply in_app_iff; right; left; reflexivity.
Qed.

Lemma upload_store_failure_keeps_cache_witness :
  loadedData
    (fst (post_upload_video
            (mkEnv 1700000000000 (fault_at InsertVideo "ORA-00942") 7 "s4lt")
            demo_form demo_world)) = loadedData demo_world /\
  snd (post_upload_video
         (mkEnv 1700000000000 (fault_at InsertVideo "ORA-00942") 7 "s4lt")
         demo_form demo_world) = database_error "ORA-00942".
Proof.
  destruct (upload_store_failure_keeps_cache
              (mkEnv 1700000000000 (fault_at InsertVideo "ORA-00942") 7 "s4lt")
              demo_form demo_world demo_file) as [Hfail _];
    try reflexivity; [vm_compute; discriminate|].
  destruct Hfail as (Hc & _ & _ & m & Hr & Hm).
  - right; left. discriminate.
  - split; [exact Hc|]. rewrite Hr. f_equal.
    destruct Hm as [Hm | [Hm | Hm]]; try discriminate.
    injection Hm as <-. reflexivity.
Defined.

(** * Signup and login *)

Section AuthFacts.

Context `{Bcrypt}.

Lemma rows_of_nil (name : string) (w : World) :
  rows_of name w = [] <->
  forall r, In r (users (db w)) -> u_username r <> name.
Proof.
  unfold rows_of. split.
  - intros E r Hin Hname.
    assert (Hr : In r (List.filter
                         (fun r => String.eqb (u_username r) name)
                         (users (db w)))).
    { apply filter_In. split; [exact Hin|]. apply String.eqb_eq, Hname. }
    rewrite E in Hr. destruct Hr.
  - intros Hno. destruct (List.filter _ _) as [|r rest] eqn:E; [reflexivity|].
    assert (Hr : In r (r :: rest)) by (left; reflexivity).
    rewrite <- E in Hr. apply filter_In in Hr as [Hin Hname].
    apply String.eqb_eq in Hname. destruct (Hno r Hin Hname).
Qed.

(** [POST /signup] on well-formed credentials, case by case. *)
Lemma post_signup_cases (env : Env) (req : Credentials) (w : World) :
  Js.truthy (username req) = true -> Js.truthy (password req) = true ->
  post_signup env req w =
  match fault env GetConnection, fault env SelectUser with
  | Some _, _ | None, Some _ => (w, registration_error)
  | None, None =>
    match rows_of (Js.text (username req)) w with
    | _ :: _ => (w, username_exists)
    | [] =>
      match fault env InsertUser, fault env Commit, fault env Close with
      | Some _, _, _ | None, Some _, _ => (w, registration_error)
      | None, None, Some _ =>
        (with_user
           (mkUserRow (new_id env) (Js.text (username req))
              (bcrypt_hash (Js.text (password req)) 10 (salt env))) w,
         registration_error)
      | None, None, None =>
        (with_user
           (mkUserRow (new_id env) (Js.text (username req))
              (bcrypt_hash (Js.text (password req)) 10 (salt env))) w,
         registered)
      end
    end
  end.
Proof.
  intros Hu Hp. unfold post_signup. rewrite Hu, Hp. cbn [negb orb].
  unfold try_catch, getConnection, select_user, insert_user, commit,
    close, guard, get_db, set_db, ret, throw, with_user, rows_of, bind.
  destruct (fault env GetConnection); [reflexivity|].
  destruct (fault env SelectUser); [reflexivity|].
  cbn [pending_users]. rewrite app_nil_r.
  destruct (List.filter _ (users (db w))) as [|r rest]; [|reflexivity].
  change (0 <? Z.of_nat (List.length (@nil UserRow))) with false.
  destruct (fault env InsertUser); [reflexivity|].
  destruct (fault env Commit); [reflexivity|].
  destruct (fault env Close); cbn; rewrite app_nil_r; reflexivity.
Qed.

Lemma post_signup_missing (env : Env) (req : Credentials) (w : World) :
  Js.truthy (username req) = false \/ Js.truthy (password req) = false ->
  post_signup env req w = (w, missing_credentials).
Proof.
  intros Hm. unfold post_signup.
  destruct Hm as [-> | ->]; [|rewrite orb_true_r]; reflexivity.
Qed.

(** C5: a signup whose user name already has a row never changes the
    world (no insert; the users, the videos, the disk and the cache are as
    before), and, on well-formed credentials with a store that answers the
    lookup, it is answered 400 with "Username already exists.". *)
Theorem signup_duplicate_username (env : Env) (req : Credentials) (w : World)
    (r : UserRow) :
  In r (users (db w)) -> u_username r = Js.text (username req) ->
  fst (post_signup env req w) = w /\
  (Js.truthy (username req) = true -> Js.truthy (password req) = true ->
   fault env GetConnection = None -> fault env SelectUser = None ->
   snd (post_signup env req w) = username_exists /\
   status (snd (post_signup env req w)) = 400).
Proof.
  intros Hin Hname.
  assert (Hrows : rows_of (Js.text (username req)) w <> []).
  { intros E. exact (proj1 (rows_of_nil _ _) E r Hin Hname). }
  destruct (Js.truthy (username req)) eqn:Hu;
    [| rewrite post_signup_missing by auto; split; [reflexivity | discriminate]].
  destruct (Js.truthy (password req)) eqn:Hp;
    [| rewrite post_signup_missing by auto; split; [reflexivity | discriminate]].
  rewrite (post_signup_cases env req w Hu Hp).
  destruct (fault env GetConnection);
    [split; [reflexivity | discriminate]|].
  destruct (fault env SelectUser);
    [split; [reflexivity | discriminate]|].
  destruct (rows_of (Js.text (username req)) w); [contradiction|].
  split; [reflexivity|]. intros _ _ _ _. split; reflexivity.
Qed.

(** C4, as the code has it: a signup on well-formed credentials that
    meets an error of the store (at the connection, at the lookup, or, for
    a new user name, at the insert, the commit or the close) is answered
    500 with the fixed message "Error registering user." and nothing else:
    the message of the underlying error is not in the answer. *)
Theorem signup_store_error_generic (env : Env) (req : Credentials)
    (w : World) :
  Js.truthy (username req) = true -> Js.truthy (password req) = true ->
  fault env GetConnection <> None \/ fault env SelectUser <> None \/
  (rows_of (Js.text (username req)) w = [] /\
   (fault env InsertUser <> None \/ fault env Commit <> None \/
    fault env Close <> None)) ->
  snd (post_signup env req w) = registration_error /\
  status (snd (post_signup env req w)) = 500 /\
  body (snd (post_signup env req w)) =
    JObject [("message", "Error registering user.")].
Proof.
  intros Hu Hp Herr.
  assert (E : snd (post_signup env req w) = registration_error).
  { rewrite (post_signup_cases env req w Hu Hp).
    destruct (fault env GetConnection); [reflexivity|].
    destruct (fault env SelectUser); [reflexivity|].
    destruct Herr as [? | [? | [-> Herr]]]; try congruence.
    destruct (fault env InsertUser); [reflexivity|].
    destruct (fault env Commit); [reflexivity|].
    destruct (fault env Close); [reflexivity|].
    destruct Herr as [? | [? | ?]]; congruence. }
  rewrite E. repeat split.
Qed.

(** [POST /login] on well-formed credentials, case by case. *)
Lemma post_login_cases (env : Env) (req : Credentials) (w : World) :
  Js.truthy (username req) = true -> Js.truthy (password req) = true ->
  post_login env req w =
  match fault env GetConnection, fault env SelectLogin with
  | Some _, _ | None, Some _ => (w, login_error)
  | None, None =>
    match rows_of (Js.text (username req)) w with
    | [] => (w, invalid_credentials)
    | user :: _ =>
      match bcrypt_compare (Js.text (password req)) (u_password user) with
      | Ok true => (w, login_successful)
      | Ok false => (w, invalid_credentials)
      | Throw _ => (w, login_error)
      end
    end
  end.
Proof.
  intros Hu Hp. unfold post_login. rewrite Hu, Hp. cbn [negb orb].
  unfold try_catch, getConnection, select_login, guard, get_db, lift, ret,
    throw, rows_of, bind.
  destruct (fault env GetConnection); [reflexivity|].
  destruct (fault env SelectLogin); [reflexivity|].
  cbn [pending_users]. rewrite app_nil_r.
  destruct (List.filter _ (users (db w))) as [|r rest]; [reflexivity|].
  cbn [firstn]. destruct (bcrypt_compare _ _) as [[|]|]; reflexivity.
Qed.

Lemma post_login_world (env : Env) (req : Credentials) (w : World) :
  fst (post_login env req w) = w.
Proof.
  destruct (Js.truthy (username req)) eqn:Hu;
    [| unfold post_login; rewrite Hu; reflexivity].
  destruct (Js.truthy (password req)) eqn:Hp;
    [| unfold post_login; rewrite Hp, orb_true_r; reflexivity].
  rewrite (post_login_cases env req w Hu Hp).
  destruct (fault env GetConnection); [reflexivity|].
  destruct (fault env SelectLogin); [reflexivity|].
  destruct (rows_of _ w); [reflexivity|].
  destruct (bcrypt_compare _ _) as [[|]|]; reflexivity.
Qed.

(** On bodies whose fields are strings: a login for a user name without
    a row and a login whose row is found but whose password
    [bcrypt.compare] finds not to match are answered alike, 401 with
    "Invalid username or password.", and neither changes the world. *)
Lemma login_failures_indistinguishable (env1 env2 : Env)
    (req1 req2 : Credentials) (w1 w2 : World) (row : UserRow) :
  Js.truthy (username req1) = true -> Js.truthy (password req1) = true ->
  Js.truthy (username req2) = true -> Js.truthy (password req2) = true ->
  fault env1 GetConnection = None -> fault env1 SelectLogin = None ->
  fault env2 GetConnection = None -> fault env2 SelectLogin = None ->
  (forall r, In r (users (db w1)) -> u_username r <> Js.text (username req1)) ->
  head (rows_of (Js.text (username req2)) w2) = Some row ->
  bcrypt_compare (Js.text (password req2)) (u_password row) = Ok false ->
  snd (post_login env1 req1 w1) = invalid_credentials /\
  snd (post_login env2 req2 w2) = invalid_credentials /\
  snd (post_login env1 req1 w1) = snd (post_login env2 req2 w2) /\
  status (snd (post_login env1 req1 w1)) = 401 /\
  fst (post_login env1 req1 w1) = w1 /\ fst (post_login env2 req2 w2) = w2.
Proof.
  intros Hu1 Hp1 Hu2 Hp2 Fc1 Fs1 Fc2 Fs2 Hnone Hrow Hcmp.
  assert (E1 : snd (post_login env1 req1 w1) = invalid_credentials).
  { rewrite (post_login_cases env1 req1 w1 Hu1 Hp1), Fc1, Fs1.
    apply rows_of_nil in Hnone. rewrite Hnone. reflexivity. }
  assert (E2 : snd (post_login env2 req2 w2) = invalid_credentials).
  { rewrite (post_login_cases env2 req2 w2 Hu2 Hp2), Fc2, Fs2.
    destruct (rows_of (Js.text (username req2)) w2) as [|r rest];
      [discriminate|].
    injection Hrow as ->. rewrite Hcmp. reflexivity. }
  rewrite E1, E2. repeat split; apply post_login_world.
Qed.

End AuthFacts.

(** ** Bodies of any JSON kind *)

Section JsonAuthFacts.

Context `{Bcrypt} `{Driver}.

(** [POST /login] on a body with two truthy fields, case by case. *)
Lemma login_json_cases (env : Env) (req : JsonBody) (w : World) :
  Js.truthy_value (j_username req) = true ->
  Js.truthy_value (j_password req) = true ->
  login_json env req w =
  match fault env GetConnection, fault env SelectLogin with
  | Some _, _ | None, Some _ => (w, login_error)
  | None, None =>
    match select_rows (j_username req) (users (db w)) with
    | Throw _ => (w, login_error)
    | Ok [] => (w, invalid_credentials)
    | Ok (user :: _) =>
      match bcryptjs_compare (j_password req) (u_password user) with
      | Ok true => (w, login_successful)
      | Ok false => (w, invalid_credentials)
      | Throw _ => (w, login_error)
      end
    end
  end.
Proof.
  intros Hu Hp. unfold login_json. rewrite Hu, Hp. cbn [negb orb].
  unfold try_catch, getConnection, select_login_value, guard, get_db, lift,
    ret, throw, bind.
  destruct (fault env GetConnection); [reflexivity|].
  destruct (fault env SelectLogin); [reflexivity|].
  cbn [pending_users]. rewrite app_nil_r.
  destruct (select_rows _ (users (db w))) as [[|r rest]|]; try reflexivity.
  cbn [firstn]. destruct (bcryptjs_compare _ _) as [[|]|]; reflexivity.
Qed.

Lemma login_json_missing (env : Env) (req : JsonBody) (w : World) :
  Js.truthy_value (j_username req) = false \/
  Js.truthy_value (j_password req) = false ->
  login_json env req w = (w, missing_credentials).
Proof.
  intros Hm. unfold login_json.
  destruct Hm as [-> | ->]; [|rewrite orb_true_r]; reflexivity.
Qed.

(** [POST /signup] on a body with two truthy fields, case by case. *)
Lemma signup_json_cases (env : Env) (req : JsonBody) (w : World) :
  Js.truthy_value (j_username req) = true ->
  Js.truthy_value (j_password req) = true ->
  signup_json env req w =
  match fault env GetConnection, fault env SelectUser with
  | Some _, _ | None, Some _ => (w, registration_error)
  | None, None =>
    match select_rows (j_username req) (users (db w)) with
    | Throw _ => (w, registration_error)
    | Ok (_ :: _) => (w, username_exists)
    | Ok [] =>
      match bcryptjs_hash (j_password req) 10 (salt env),
            fault env InsertUser, insert_text (j_username req) with
      | Throw _, _, _ | Ok _, Some _, _ | Ok _, None, Throw _ =>
        (w, registration_error)
      | Ok hashedPassword, None, Ok name =>
        match fault env Commit, fault env Close with
        | Some _, _ => (w, registration_error)
        | None, Some _ =>
          (with_user (mkUserRow (new_id env) name hashedPassword) w,
           registration_error)
        | None, None =>
          (with_user (mkUserRow (new_id env) name hashedPassword) w,
           registered)
        end
      end
    end
  end.
Proof.
  intros Hu Hp. unfold signup_json. rewrite Hu, Hp. cbn [negb orb].
  unfold try_catch, getConnection, select_user_value, insert_user_value,
    commit, close, guard, get_db, set_db, lift, ret, throw, with_user, bind.
  destruct (fault env GetConnection); [reflexivity|].
  destruct (fault env SelectUser); [reflexivity|].
  cbn [pending_users]. rewrite app_nil_r.
  destruct (select_rows _ (users (db w))) as [[|r rest]|];
    try reflexivity.
  change (0 <? Z.of_nat (List.length (@nil UserRow))) with false.
  destruct (bcryptjs_hash _ _ _); [|reflexivity].
  destruct (fault env InsertUser); [reflexivity|].
  destruct (insert_text _); [|reflexivity].
  destruct (fault env Commit); [reflexivity|].
  destruct (fault env Close); cbn; rewrite app_nil_r; reflexivity.
Qed.

Lemma signup_json_missing (env : Env) (req : JsonBody) (w : World) :
  Js.truthy_value (j_username req) = false \/
  Js.truthy_value (j_password req) = false ->
  signup_json env req w = (w, missing_credentials).
Proof.
  intros Hm. unfold signup_json.
  destruct Hm as [-> | ->]; [|rewrite orb_true_r]; reflexivity.
Qed.

Lemma truthy_of_field (x : option string) :
  Js.truthy_value (Js.of_field x) = Js.truthy x.
Proof. destruct x; reflexivity. Qed.

(** On a body whose fields are absent or strings the two handlers are
    those stated on [Credentials], whatever the driver does with other
    values. *)
Lemma login_json_of_credentials (env : Env) (req : Credentials) (w : World) :
  login_json env (json_of req) w = post_login env req w.
Proof.
  destruct (Js.truthy (username req)) eqn:Hu.
  2:{ rewrite login_json_missing
        by (left; cbn; rewrite truthy_of_field; exact Hu).
      unfold post_login. rewrite Hu. reflexivity. }
  destruct (Js.truthy (password req)) eqn:Hp.
  2:{ rewrite login_json_missing
        by (right; cbn; rewrite truthy_of_field; exact Hp).
      unfold post_login. rewrite Hp, orb_true_r. reflexivity. }
  rewrite login_json_cases
    by (cbn; rewrite truthy_of_field; assumption).
  rewrite (post_login_cases env req w Hu Hp).
  destruct req as [[u|] [p|]]; try discriminate.
  cbn [json_of j_username j_password Js.of_field select_rows
       bcryptjs_compare Js.text username password].
  fold (rows_of u w).
  destruct (fault env GetConnection); [reflexivity|].
  destruct (fault env SelectLogin); [reflexivity|].
  destruct (rows_of u w) as [|row rest]; [reflexivity|].
  destruct (bcrypt_compare p (u_password row)) as [[|]|]; reflexivity.
Qed.

Lemma signup_json_of_credentials (env : Env) (req : Credentials) (w : World) :
  signup_json env (json_of req) w = post_signup env req w.
Proof.
  destruct (Js.truthy (username req)) eqn:Hu.
  2:{ rewrite signup_json_missing
        by (left; cbn; rewrite truthy_of_field; exact Hu).
      rewrite post_signup_missing by auto. reflexivity. }
  destruct (Js.truthy (password req)) eqn:Hp.
  2:{ rewrite signup_json_missing
        by (right; cbn; rewrite truthy_of_field; exact Hp).
      rewrite post_signup_missing by auto. reflexivity. }
  rewrite signup_json_cases
    by (cbn; rewrite truthy_of_field; assumption).
  rewrite (post_signup_cases env req w Hu Hp).
  destruct req as [[u|] [p|]]; try discriminate.
  cbn [json_of j_username j_password Js.of_field select_rows insert_text
       bcryptjs_hash Js.text username password].
  fold (rows_of u w).
  destruct (fault env GetConnection); [reflexivity|].
  destruct (fault env SelectUser); [reflexivity|].
  destruct (rows_of u w); [|reflexivity].
  destruct (fault env InsertUser); [reflexivity|].
  destruct (fault env Commit); [reflexivity|].
  destruct (fault env Close); reflexivity.
Qed.

(** A password that is truthy without being a string: an unknown user
    name is answered 401, a known one 500, whatever the stored hash. *)
Lemma login_json_nonstring_password (env : Env) (req : JsonBody) (w : World) :
  Js.truthy_value (j_username req) = true ->
  Js.truthy_value (j_password req) = true ->
  (forall s, j_password req <> Js.VString s) ->
  fault env GetConnection = None -> fault env SelectLogin = None ->
  (select_rows (j_username req) (users (db w)) = Ok [] ->
   snd (login_json env req w) = invalid_credentials) /\
  (forall row rest,
      select_rows (j_username req) (users (db w)) = Ok (row :: rest) ->
      snd (login_json env req w) = login_error).
Proof.
  intros Hu Hp Hns F1 F2.
  rewrite (login_json_cases env req w Hu Hp), F1, F2.
  split; [intros ->; reflexivity|]. intros row rest ->.
  destruct (j_password req) as [| |b|n|s|o]; try reflexivity.
  destruct (Hns s eq_refl).
Qed.

End JsonAuthFacts.

(** C1: the two failures of a login are not answered alike for every
    call. With [alice] in the store and [mallory] not, the body
    [{"username": ..., "password": 1}] is answered 401 "Invalid username
    or password." for [mallory] and 500 "Error logging in." for [alice]:
    [bcrypt.compare] refuses the number inside the [try], so the two
    statuses tell whether the user name has a row. *)
Theorem login_nonstring_password_leaks :
  rows_of "mallory" demo_world = [] /\
  rows_of "alice" demo_world = [mkUserRow 1 "alice" "s4lt$secret123"] /\
  snd (login_json (H := demo_bcrypt) (H0 := demo_driver) demo_env
         (mkJsonBody (Js.VString "mallory") (Js.VNumber 1)) demo_world) =
    res_status_json 401
      (JObject [("message", "Invalid username or password.")]) /\
  snd (login_json (H := demo_bcrypt) (H0 := demo_driver) demo_env
         (mkJsonBody (Js.VString "alice") (Js.VNumber 1)) demo_world) =
    res_status_json 500 (JObject [("message", "Error logging in.")]) /\
  snd (login_json (H := demo_bcrypt) (H0 := demo_driver) demo_env
         (mkJsonBody (Js.VString "mallory") (Js.VNumber 1)) demo_world) <>
  snd (login_json (H := demo_bcrypt) (H0 := demo_driver) demo_env
         (mkJsonBody (Js.VString "alice") (Js.VNumber 1)) demo_world).
Proof. repeat split. discriminate. Qed.

Lemma login_failures_indistinguishable_witness :
  snd (post_login (H := demo_bcrypt) demo_env
         (mkCredentials (Some "mallory") (Some "secret123")) demo_world) =
  snd (post_login (H := demo_bcrypt) demo_env
         (mkCredentials (Some "alice") (Some "wrongpass")) demo_world).
Proof.
  apply (login_failures_indistinguishable (H := demo_bcrypt)
           demo_env demo_env
           (mkCredentials (Some "mallory") (Some "secret123"))
           (mkCredentials (Some "alice") (Some "wrongpass"))
           demo_world demo_world
           (mkUserRow 1 "alice" "s4lt$secret123"));
    try reflexivity.
  intros r [<- | []]. discriminate.
Defined.

Example login_alice_succeeds :
  snd (post_login (H := demo_bcrypt) demo_env
         (mkCredentials (Some "alice") (Some "secret123")) demo_world) =
  login_successful.
Proof. reflexivity. Qed.

Lemma signup_duplicate_username_witness :
  fst (post_signup (H := demo_bcrypt) demo_env
         (mkCredentials (Some "alice") (Some "other")) demo_world) =
  demo_world /\
  snd (post_signup (H := demo_bcrypt) demo_env
         (mkCredentials (Some "alice") (Some "other")) demo_world) =
  username_exists.
Proof.
  destruct (signup_duplicate_username (H := demo_bcrypt) demo_env
              (mkCredentials (Some "alice") (Some "other")) demo_world
              (mkUserRow 1 "alice" "s4lt$secret123")) as [Hw Hr].
  - left. reflexivity.
  - reflexivity.
  - split; [exact Hw|]. apply Hr; reflexivity.
Defined.

Lemma signup_store_error_generic_witness :
  body (snd (post_signup (H := demo_bcrypt)
               (mkEnv 1700000000000
                  (fault_at InsertUser "ORA-01017: invalid password") 7 "s4lt")
               (mkCredentials (Some "bob") (Some "hunter2")) demo_world)) =
  JObject [("message", "Error registering user.")].
Proof.
  apply (signup_store_error_generic (H := demo_bcrypt)
           (mkEnv 1700000000000
              (fault_at InsertUser "ORA-01017: invalid password") 7 "s4lt")
           (mkCredentials (Some "bob") (Some "hunter2")) demo_world);
    try reflexivity.
  right; right. split; [reflexivity|]. left. discriminate.
Defined.

(** C4, as stated, fails: the store refuses the connection with
    "ORA-12541: TNS:no listener", and the answer of the signup is the
    fixed message, in which that text does not occur. *)
Lemma signup_drops_store_message :
  fault (mkEnv 1700000000000
           (fault_at GetConnection "ORA-12541: TNS:no listener") 7 "s4lt")
        GetConnection = Some "ORA-12541: TNS:no listener" /\
  snd (post_signup (H := demo_bcrypt)
         (mkEnv 1700000000000
            (fault_at GetConnection "ORA-12541: TNS:no listener") 7 "s4lt")
         (mkCredentials (Some "bob") (Some "hunter2")) demo_world) =
  res_status_json 500 (JObject [("message", "Error registering user.")]) /\
  carries "ORA-12541: TNS:no listener"
    (snd (post_signup (H := demo_bcrypt)
            (mkEnv 1700000000000
               (fault_at GetConnection "ORA-12541: TNS:no listener") 7 "s4lt")
            (mkCredentials (Some "bob") (Some "hunter2")) demo_world)) = false.
Proof. repeat split. Qed.

(** The sibling route does carry the message of the store. *)
Example upload_carries_store_message :
  carries "ORA-12541: TNS:no listener"
    (snd (post_upload_video
            (mkEnv 1700000000000
               (fault_at GetConnection "ORA-12541: TNS:no listener") 7 "s4lt")
            demo_form demo_world)) = true.
Proof. reflexivity. Qed.

(** * The shape of the entries of the cache *)

Lemma loaded_loadedData (env : Env) (d : Db) (files : gmap string Z) :
  loadedData (loadData env (initial_world d files)) =
  match fault env GetConnection, fault env SelectVideos with
  | None, None => List.map entry_of_row (videos d)
  | _, _ => []
  end.
Proof.
  unfold initial_world, loadData, getConnection, select_videos, close, guard,
    get_db, set_loadedData, ret, throw, bind.
  destruct (fault env GetConnection); [reflexivity|].
  destruct (fault env SelectVideos); cbn;
    destruct (fault env Close); cbn; rewrite ?app_nil_r; reflexivity.
Qed.

Lemma loaded_entries_have_id (env : Env) (d : Db) (files : gmap string Z)
    (e : VideoEntry) :
  In e (loadedData (loadData env (initial_world d files))) ->
  exists n, id e = Some n.
Proof.
  rewrite loaded_loadedData.
  destruct (fault env GetConnection); [intros []|].
  destruct (fault env SelectVideos); [intros []|].
  intros (row & <- & _)%in_map_iff. exists (v_id row). reflexivity.
Qed.

Lemma upload_appends_without_id (env : Env) (form : UploadForm) (w : World) :
  (loadedData (fst (post_upload_video env form w)) = loadedData w /\
   status (snd (post_upload_video env form w)) <> 200) \/
  (exists e,
      loadedData (fst (post_upload_video env form w)) = loadedData w ++ [e] /\
      id e = None).
Proof.
  destruct (post_upload_video_outcomes env form w) as [Hsame | (f & Hall)];
    [left; exact Hsame|].
  right. destruct Hall as (_ & _ & _ & _ & _ & _ & _ & _ & _ & _ & ->).
  eexists. split; reflexivity.
Qed.

Section Serving.

Context `{Bcrypt}.

Lemma post_signup_loadedData (env : Env) (req : Credentials) (w : World) :
  loadedData (fst (post_signup env req w)) = loadedData w.
Proof.
  destruct (Js.truthy (username req)) eqn:Hu;
    [| rewrite post_signup_missing by auto; reflexivity].
  destruct (Js.truthy (password req)) eqn:Hp;
    [| rewrite post_signup_missing by auto; reflexivity].
  rewrite (post_signup_cases env req w Hu Hp).
  destruct (fault env GetConnection); [reflexivity|].
  destruct (fault env SelectUser); [reflexivity|].
  destruct (rows_of _ w); [|reflexivity].
  destruct (fault env InsertUser); [reflexivity|].
  destruct (fault env Commit); [reflexivity|].
  destruct (fault env Close); reflexivity.
Qed.

(** One request leaves the cache alone or appends one entry without
    [id]; an upload answered 200 appends. *)
Lemma handle_cache (env : Env) (rq : Request) (w : World) :
  exists added,
    loadedData (fst (handle env rq w)) = loadedData w ++ added /\
    Forall (fun e => has_id e = false) added /\
    (forall form, rq = UploadVideo form ->
                  status (snd (handle env rq w)) = 200 -> added <> []).
Proof.
  destruct rq as [|form|req|req]; cbn [handle].
  - exists []. rewrite app_nil_r. repeat split; [constructor | discriminate].
  - destruct (upload_appends_without_id env form w) as [[E Hs] | (e & E & He)].
    + exists []. rewrite app_nil_r. repeat split; [exact E | constructor |].
      intros _ _ H200. contradiction.
    + exists [e]. repeat split; [exact E | | discriminate].
      constructor; [|constructor]. unfold has_id. rewrite He. reflexivity.
  - exists []. rewrite app_nil_r, post_signup_loadedData.
    repeat split; [constructor | discriminate].
  - exists []. rewrite app_nil_r, post_login_world.
    repeat split; [constructor | discriminate].
Qed.

(** The same over a trace of requests. *)
Lemma serve_cache (trace : list (Env * Request)) :
  forall w, exists added,
    loadedData (fst (serve trace w)) = loadedData w ++ added /\
    Forall (fun e => has_id e = false) added /\
    (forall (i : nat) env form r,
        trace !! i = Some (env, UploadVideo form) ->
        snd (serve trace w) !! i = Some r ->
        status r = 200 -> added <> []).
Proof.
  induction trace as [|[env rq] rest IH]; intros w.
  - exists []. rewrite app_nil_r. repeat split; [constructor|].
    intros i env form r Hi. discriminate.
  - cbn [serve].
    destruct (handle_cache env rq w) as (a1 & E1 & F1 & N1).
    destruct (handle env rq w) as [w1 r1] eqn:Eh. cbn [fst snd] in *.
    destruct (IH w1) as (a2 & E2 & F2 & N2).
    destruct (serve rest w1) as [w2 rs] eqn:Es. cbn [fst snd] in *.
    exists (a1 ++ a2). rewrite E2, E1, app_assoc.
    split; [reflexivity|]. split; [apply Forall_app; auto|].
    intros [|i] env' form r Hi Hr H200; cbn in Hi, Hr.
    + injection Hi as -> ->. injection Hr as ->.
      specialize (N1 form eq_refl H200).
      destruct a1; [contradiction | discriminate].
    + specialize (N2 i env' form r Hi Hr H200).
      destruct a1; [exact N2 | discriminate].
Qed.

(** C9: the listing never holds entries of both shapes. [loadData] would
    give every entry it loads a numeric [id], and an upload appends
    nothing or one entry without [id]; but the file never calls
    [loadData]: the cache starts empty, so after any requests every entry
    of the listing served by [GET /api/videos] lacks an [id], also when
    [videos] held rows at the start. *)
Theorem listing_never_heterogeneous (d : Db) (files : gmap string Z)
    (trace : list (Env * Request)) :
  loadedData (initial_world d files) = [] /\
  (forall env e,
      In e (loadedData (loadData env (initial_world d files))) ->
      exists n, id e = Some n) /\
  (forall env form w,
      loadedData (fst (post_upload_video env form w)) = loadedData w \/
      exists e,
        loadedData (fst (post_upload_video env form w)) =
          loadedData w ++ [e] /\ id e = None) /\
  Forall (fun e => id e = None)
         (loadedData (fst (serve trace (initial_world d files)))) /\
  exists l,
    snd (get_api_videos (fst (serve trace (initial_world d files)))) =
      res_json (JVideos l) /\
    heterogeneous l = false.
Proof.
  split; [reflexivity|].
  split; [intros env e; apply loaded_entries_have_id|].
  split.
  { intros env form w.
    destruct (upload_appends_without_id env form w) as [[E _] | He]; auto. }
  destruct (serve_cache trace (initial_world d files)) as (added & E & F & _).
  cbn [initial_world loadedData] in E. rewrite app_nil_l in E.
  assert (Hno : existsb has_id added = false).
  { clear E. induction F as [|e l He _ IH]; cbn; [reflexivity|].
    rewrite He, IH. reflexivity. }
  split.
  - rewrite E. eapply Forall_impl; [exact F|]. intros e. unfold has_id.
    destruct (id e); [discriminate | reflexivity].
  - eexists. split; [reflexivity|]. rewrite E. unfold heterogeneous.
    rewrite Hno. reflexivity.
Qed.

End Serving.

(** The store holds a video at the start, one more is uploaded: the
    listing holds the uploaded one only. *)
Example listing_after_upload :
  videos (db demo_world) =
    [mkVideoRow 1 "Intro" "first video" "a,b" "/uploads/1690000000000.mp4"] /\
  snd (get_api_videos
         (fst (post_upload_video demo_env demo_form demo_world))) =
  res_json
    (JVideos [mkEntry None "Demo" "d" "x,y" "/uploads/1700000000000.mp4"]).
Proof. split; reflexivity. Qed.

(** Signup, then a login with a wrong password, then the right one. *)
Example signup_then_login :
  snd (serve (H := demo_bcrypt)
         [(demo_env, Signup (mkCredentials (Some "bob") (Some "hunter2")));
          (demo_env, Login (mkCredentials (Some "bob") (Some "wrongpass")));
          (demo_env, Login (mkCredentials (Some "bob") (Some "hunter2")))]
         demo_world) =
  [registered; invalid_credentials; login_successful].
Proof. reflexivity. Qed.

(** * Further properties of the file *)

(** ** Configuration of the store *)

Lemma or_default_nonempty (v : option string) (d : string) :
  d <> "" -> Config.or_default v d <> "".
Proof.
  intros Hd. unfold Config.or_default.
  destruct v as [s|]; cbn; [|exact Hd].
  destruct (String.eqb_spec s ""); cbn; assumption.
Qed.

(** X1: each field of [dbConfig] comes from its own variable: [user] from
    [DB_USER] with default "system", [password] from [DB_PASSWORD] with
    default "4493", [connectionString] from [DB_CONNECTION_STRING] with
    default "localhost/XE". A variable that is unset or set to the empty
    string gives the default, a non-empty one is taken as it is; so no
    field is ever empty, and setting one variable leaves the two other
    fields alone. *)
Theorem dbConfig_defaults (process_env : gmap string string) :
  (Config.user (Config.dbConfig process_env) <> "" /\
   Config.password (Config.dbConfig process_env) <> "" /\
   Config.connectionString (Config.dbConfig process_env) <> "") /\
  ((process_env !! "DB_USER" = None \/ process_env !! "DB_USER" = Some "" ->
    Config.user (Config.dbConfig process_env) = "system") /\
   (process_env !! "DB_PASSWORD" = None \/
    process_env !! "DB_PASSWORD" = Some "" ->
    Config.password (Config.dbConfig process_env) = "4493") /\
   (process_env !! "DB_CONNECTION_STRING" = None \/
    process_env !! "DB_CONNECTION_STRING" = Some "" ->
    Config.connectionString (Config.dbConfig process_env) = "localhost/XE")) /\
  (forall v, v <> "" ->
     (process_env !! "DB_USER" = Some v ->
      Config.user (Config.dbConfig process_env) = v) /\
     (process_env !! "DB_PASSWORD" = Some v ->
      Config.password (Config.dbConfig process_env) = v) /\
     (process_env !! "DB_CONNECTION_STRING" = Some v ->
      Config.connectionString (Config.dbConfig process_env) = v)) /\
  (forall v, v <> "" ->
     Config.dbConfig (<["DB_USER" := v]> process_env) =
       Config.mkDbConfig v
         (Config.password (Config.dbConfig process_env))
         (Config.connectionString (Config.dbConfig process_env)) /\
     Config.dbConfig (<["DB_PASSWORD" := v]> process_env) =
       Config.mkDbConfig
         (Config.user (Config.dbConfig process_env)) v
         (Config.connectionString (Config.dbConfig process_env)) /\
     Config.dbConfig (<["DB_CONNECTION_STRING" := v]> process_env) =
       Config.mkDbConfig
         (Config.user (Config.dbConfig process_env))
         (Config.password (Config.dbConfig process_env)) v).
Proof.
  assert (Hset : forall v d, v <> "" -> Config.or_default (Some v) d = v).
  { intros v d Hv. unfold Config.or_default. cbn.
    destruct (String.eqb_spec v ""); [contradiction | reflexivity]. }
  unfold Config.dbConfig.
  cbn [Config.user Config.password Config.connectionString].
  split; [repeat split; apply or_default_nonempty; discriminate|].
  split; [repeat split; intros [-> | ->]; reflexivity|].
  split.
  - intros v Hv. repeat split; intros ->; apply Hset, Hv.
  - intros v Hv. repeat split;
      rewrite lookup_insert_eq, !lookup_insert_ne by discriminate;
      rewrite (Hset v _ Hv); reflexivity.
Qed.

Example dbConfig_unset :
  Config.dbConfig ∅ = Config.mkDbConfig "system" "4493" "localhost/XE".
Proof. reflexivity. Qed.

(** ** The load *)

(** X2: [loadData] never touches the store or the disk. When the
    connection and the query succeed it replaces the cache by one entry
    per row of [videos], in the order of the rows, each with the id of its
    row; when either fails the cache stays as it was. A failing [close]
    changes nothing of this. *)
Theorem loadData_effect (env : Env) (w : World) :
  db (loadData env w) = db w /\
  disk (loadData env w) = disk w /\
  (fault env GetConnection = None -> fault env SelectVideos = None ->
   loadedData (loadData env w) = List.map entry_of_row (videos (db w)) /\
   List.map id (loadedData (loadData env w)) =
     List.map (fun row => Some (v_id row)) (videos (db w)) /\
   List.map videoPath (loadedData (loadData env w)) =
     List.map v_video_path (videos (db w))) /\
  (fault env GetConnection <> None \/ fault env SelectVideos <> None ->
   loadedData (loadData env w) = loadedData w).
Proof.
  unfold loadData, getConnection, select_videos, close, guard,
    get_db, set_loadedData, ret, throw, bind.
  destruct (fault env GetConnection) as [m1|].
  { cbn. repeat split; try discriminate. }
  destruct (fault env SelectVideos) as [m2|]; cbn;
    destruct (fault env Close); cbn; rewrite ?app_nil_r.
  1-2: split; [reflexivity|]; split; [reflexivity|];
       split; [discriminate | reflexivity].
  1-2: split; [reflexivity|]; split; [reflexivity|]; split;
       [intros _ _; rewrite !List.map_map; repeat split; reflexivity
       | intros [? | ?]; congruence].
Qed.

Lemma loadData_effect_witness :
  loadedData (loadData demo_env (mkWorld demo_db demo_files [])) =
  [mkEntry (Some 1) "Intro" "first video" "a,b" "/uploads/1690000000000.mp4"].
Proof.
  apply (loadData_effect demo_env (mkWorld demo_db demo_files []));
    reflexivity.
Defined.

(** ** The shape of an extension *)

Section ExtensionShape.

Variable path : string.

Lemma scan_char_startDot (code : ascii) (i : Z) (st : Path.Scan) :
  Path.startDot (Path.scan_char code i st) =
  if Ascii.eqb code "." && (Path.startDot st =? -1) then i
  else Path.startDot st.
Proof.
  destruct st as [sd sp e ms pd].
  unfold Path.scan_char, Path.mark_end, Path.set_startDot,
    Path.set_preDotState. simpl.
  destruct (e =? -1); simpl; destruct (Ascii.eqb code "."); simpl;
    destruct (sd =? -1); simpl; try destruct (pd =? 1); reflexivity.
Qed.

Lemma scan_char_dot_inv (i : nat) (code : ascii) (st : Path.Scan) :
  String.get i path = Some code ->
  scan_dot_inv path st ->
  scan_dot_inv path (Path.scan_char code (Z.of_nat i) st).
Proof.
  intros Hget Hinv. unfold scan_dot_inv. rewrite scan_char_startDot.
  destruct (Ascii.eqb_spec code ".") as [-> | Hcode]; [|exact Hinv].
  destruct (Path.startDot st =? -1); [|exact Hinv].
  right. cbn [andb]. split; [lia|]. rewrite Nat2Z.id. exact Hget.
Qed.

Lemma scan_dot (n : nat) :
  forall st, scan_dot_inv path st -> scan_dot_inv path (Path.scan path n st).
Proof.
  induction n as [|i IH]; intros st Hinv; simpl; [exact Hinv|].
  destruct (String.get i path) as [code|] eqn:Hget; [|exact Hinv].
  destruct (Ascii.eqb code "/").
  - destruct (Path.matchedSlash st); simpl; [apply IH; exact Hinv|].
    destruct st; exact Hinv.
  - apply IH, scan_char_dot_inv; assumption.
Qed.

Lemma substring_head (s : string) :
  forall (n m : nat) (c : ascii),
    String.get n s = Some c -> (0 < m)%nat ->
    exists rest, String.substring n m s = String c rest.
Proof.
  induction s as [|a s IH]; intros n m c Hget Hm; [destruct n; discriminate|].
  destruct n as [|n]; simpl in *.
  - injection Hget as ->. destruct m as [|m]; [lia|]. eauto.
  - apply IH; assumption.
Qed.

Lemma extname_dot_or_empty :
  Path.extname path = "" \/
  exists rest, Path.extname path = String "." rest.
Proof.
  unfold Path.extname.
  pose proof (scan_establishes_post path (String.length path) Path.scan0) as Hp.
  pose proof (scan_dot (String.length path) Path.scan0) as Hd.
  set (st := Path.scan path (String.length path) Path.scan0) in *.
  destruct (_ || _) eqn:Hc; [left; reflexivity | right].
  repeat (apply orb_false_iff in Hc; destruct Hc as [Hc ?]).
  destruct Hp as [Hp | [Hp | [Hr _]]];
    [left; split; reflexivity | lia | lia |].
  destruct Hd as [Hd | [_ Hd]]; [left; reflexivity | lia |].
  unfold Js.slice. apply substring_head; [exact Hd | lia].
Qed.

End ExtensionShape.

Lemma toLowerCase_length (s : string) :
  String.length (Js.toLowerCase s) = String.length s.
Proof.
  induction s as [|a s IH]; [reflexivity|].
  cbn [Js.toLowerCase String.length]. rewrite IH. reflexivity.
Qed.

Lemma length_append (s t : string) :
  String.length (s +:+ t) = (String.length s + String.length t)%nat.
Proof.
  induction s as [|a s IH]; [reflexivity|].
  change (String a s +:+ t) with (String a (s +:+ t)).
  cbn [String.length]. rewrite IH. reflexivity.
Qed.

Lemma fileTypes_test_length (s : string) :
  Upload.fileTypes_test s = true -> (3 <= String.length s)%nat.
Proof.
  intros (t & pre & post & Hin & ->)%fileTypes_test_spec.
  rewrite !length_append.
  destruct Hin as [<- | [<- | [<- | [<- | []]]]]; simpl; lia.
Qed.

Lemma fileTypes_test_dot (s : string) :
  Upload.fileTypes_test (String "." s) = Upload.fileTypes_test s.
Proof. reflexivity. Qed.

(** X3: whatever name the client declares, the extension taken from it
    is empty or begins with a dot; for a file the filter lets through it
    is a dot followed by at least three characters, so the stored name is
    the timestamp, a dot and that rest. *)
Theorem accepted_filename_shape (env : Env) (f : FilePart) :
  (Path.extname (originalname f) = "" \/
   exists rest, Path.extname (originalname f) = String "." rest) /\
  (Upload.fileFilter f = Ok true ->
   exists rest,
     (3 <= String.length rest)%nat /\
     Upload.storage_filename env f =
       Js.number_toString (now env) +:+ String "." rest).
Proof.
  split; [apply extname_dot_or_empty|].
  intros Hok. unfold Upload.fileFilter in Hok.
  destruct (Upload.fileTypes_test
              (Js.toLowerCase (Path.extname (originalname f)))) eqn:Hext;
    [|discriminate].
  unfold Upload.storage_filename.
  destruct (extname_dot_or_empty (originalname f)) as [E | [rest E]];
    rewrite E in *; [discriminate|].
  exists rest. split; [|reflexivity].
  change (Js.toLowerCase (String "." rest))
    with (String "."%char (Js.toLowerCase rest)) in Hext.
  rewrite fileTypes_test_dot in Hext.
  apply fileTypes_test_length in Hext.
  rewrite toLowerCase_length in Hext. exact Hext.
Qed.

Lemma accepted_filename_shape_witness :
  exists rest,
    (3 <= String.length rest)%nat /\
    Upload.storage_filename demo_env demo_file =
      Js.number_toString (now demo_env) +:+ String "." rest.
Proof.
  apply (accepted_filename_shape demo_env demo_file). reflexivity.
Defined.

(** ** More on the upload route *)

(** The route on a complete form whose file passed the gates, fault by
    fault. *)
Lemma post_upload_video_complete (env : Env) (form : UploadForm) (w : World)
    (f : FilePart) :
  provided_file form = Some f -> Upload.fileFilter f = Ok true ->
  size f <= Upload.fileSize ->
  Js.truthy (form_title form) = true ->
  Js.truthy (form_description form) = true ->
  Js.truthy (form_tags form) = true ->
  post_upload_video env form w =
  match fault env GetConnection, fault env InsertVideo,
        fault env Commit, fault env Close with
  | Some m, _, _, _ | None, Some m, _, _ | None, None, Some m, _ =>
    (with_file ("uploads/" +:+ Upload.storage_filename env f) (size f) w,
     database_error m)
  | None, None, None, Some m =>
    (with_video
       (mkVideoRow (new_id env) (Js.text (form_title form))
          (Js.text (form_description form)) (Js.text (form_tags form))
          ("/uploads/" +:+ Upload.storage_filename env f))
       (with_file ("uploads/" +:+ Upload.storage_filename env f) (size f) w),
     database_error m)
  | None, None, None, None =>
    (with_entry
       (mkEntry None (Js.text (form_title form))
          (Js.text (form_description form)) (Js.text (form_tags form))
          ("/uploads/" +:+ Upload.storage_filename env f))
       (with_video
          (mkVideoRow (new_id env) (Js.text (form_title form))
             (Js.text (form_description form)) (Js.text (form_tags form))
             ("/uploads/" +:+ Upload.storage_filename env f))
          (with_file ("uploads/" +:+ Upload.storage_filename env f)
             (size f) w)),
     upload_success ("/uploads/" +:+ Upload.storage_filename env f))
  end.
Proof.
  intros Hp Hf Hs Ht Hd Hg.
  rewrite (post_upload_video_stored env form w f Hp Hf Hs).
  rewrite (handler_complete env
             (mkUploadReq (form_title form) (form_description form)
                (form_tags form) (Some _)) _ _ Ht Hd Hg eq_refl).
  reflexivity.
Qed.

(** X4: a file the type filter refuses stops the request before anything
    is written: the world is exactly as before (no file, no row, no cache
    entry), whatever the other fields are, and the answer comes from the
    error-handling middleware: status 500 with the filter's message. *)
Theorem upload_refused_type_untouched (env : Env) (form : UploadForm)
    (w : World) (f : FilePart) :
  provided_file form = Some f -> Upload.fileFilter f <> Ok true ->
  post_upload_video env form w =
    (w, error_middleware "Only video files are allowed!") /\
  status (snd (post_upload_video env form w)) = 500 /\
  carries "Only video files are allowed!"
    (snd (post_upload_video env form w)) = true.
Proof.
  intros Hp Hno.
  assert (E : post_upload_video env form w =
              (w, error_middleware "Only video files are allowed!")).
  { destruct (fileFilter_total f) as [Hok | Hth]; [contradiction|].
    unfold post_upload_video.
    rewrite (single_refused env form w f _ Hp Hth). reflexivity. }
  rewrite E. repeat split.
Qed.

Lemma upload_refused_type_untouched_witness :
  post_upload_video demo_env
    (mkUploadForm (Some "Demo") (Some "d") (Some "x,y")
       (Some (mkFilePart "notes.txt" "text/plain" 12)))
    demo_world =
  (demo_world, error_middleware "Only video files are allowed!").
Proof.
  assert (Hno : Upload.fileFilter (mkFilePart "notes.txt" "text/plain" 12)
                <> Ok true) by (vm_compute; discriminate).
  exact (proj1 (upload_refused_type_untouched demo_env
                  (mkUploadForm (Some "Demo") (Some "d") (Some "x,y")
                     (Some (mkFilePart "notes.txt" "text/plain" 12)))
                  demo_world (mkFilePart "notes.txt" "text/plain" 12)
                  eq_refl Hno)).
Defined.

(** X5: after a successful upload the three places agree: the file is on
    disk at ["uploads/" + name] with the size sent, [videos] has gained
    exactly one row, last, whose [video_path] is ["/uploads/" + name] and
    whose id is the one the store assigned, the answer carries that same
    path, and [users] is untouched. *)
Theorem upload_success_consistent (env : Env) (form : UploadForm) (w : World)
    (f : FilePart) :
  provided_file form = Some f -> Upload.fileFilter f = Ok true ->
  size f <= Upload.fileSize ->
  Js.truthy (form_title form) = true ->
  Js.truthy (form_description form) = true ->
  Js.truthy (form_tags form) = true ->
  fault env GetConnection = None -> fault env InsertVideo = None ->
  fault env Commit = None -> fault env Close = None ->
  exists row,
    videos (db (fst (post_upload_video env form w))) = videos (db w) ++ [row] /\
    v_id row = new_id env /\
    Some (v_title row) = form_title form /\
    Some (v_description row) = form_description form /\
    Some (v_tags row) = form_tags form /\
    v_video_path row = "/uploads/" +:+ Upload.storage_filename env f /\
    snd (post_upload_video env form w) = upload_success (v_video_path row) /\
    disk (fst (post_upload_video env form w))
      !! ("uploads/" +:+ Upload.storage_filename env f) = Some (size f) /\
    v_video_path row =
      String "/" ("uploads/" +:+ Upload.storage_filename env f) /\
    users (db (fst (post_upload_video env form w))) = users (db w).
Proof.
  intros Hp Hf Hs Ht Hd Hg F1 F2 F3 F4.
  rewrite (post_upload_video_complete env form w f Hp Hf Hs Ht Hd Hg).
  rewrite F1, F2, F3, F4.
  cbn [fst snd with_entry with_video with_file db disk users videos].
  eexists. split; [reflexivity|].
  cbn [v_id v_title v_description v_tags v_video_path].
  destruct (form_title form), (form_description form), (form_tags form);
    try discriminate.
  repeat split. apply lookup_insert_eq.
Qed.

Lemma upload_success_consistent_witness :
  disk (fst (post_upload_video demo_env demo_form demo_world))
    !! "uploads/1700000000000.mp4" = Some 10240 /\
  exists row,
    videos (db (fst (post_upload_video demo_env demo_form demo_world))) =
      videos (db demo_world) ++ [row] /\
    v_video_path row = "/uploads/1700000000000.mp4".
Proof.
  destruct (upload_success_consistent demo_env demo_form demo_world demo_file)
    as (row & Hv & _ & _ & _ & _ & Hpath & _ & Hdisk & _);
    try reflexivity; [vm_compute; discriminate|].
  split; [exact Hdisk|]. exists row. split; [exact Hv | exact Hpath].
Defined.

(** X6: when only [connection.close()] fails, after the commit, the
    upload is answered 500 with the driver's message although the file is
    on disk and the row is committed; the cache is not updated, so the
    listing misses the video until [loadData] is run, which then
    lists it, with its id. *)
Theorem upload_close_failure (env env' : Env) (form : UploadForm) (w : World)
    (f : FilePart) (m : string) :
  provided_file form = Some f -> Upload.fileFilter f = Ok true ->
  size f <= Upload.fileSize ->
  Js.truthy (form_title form) = true ->
  Js.truthy (form_description form) = true ->
  Js.truthy (form_tags form) = true ->
  fault env GetConnection = None -> fault env InsertVideo = None ->
  fault env Commit = None -> fault env Close = Some m ->
  fault env' GetConnection = None -> fault env' SelectVideos = None ->
  snd (post_upload_video env form w) = database_error m /\
  loadedData (fst (post_upload_video env form w)) = loadedData w /\
  disk (fst (post_upload_video env form w))
    !! ("uploads/" +:+ Upload.storage_filename env f) = Some (size f) /\
  In (mkVideoRow (new_id env) (Js.text (form_title form))
        (Js.text (form_description form)) (Js.text (form_tags form))
        ("/uploads/" +:+ Upload.storage_filename env f))
     (videos (db (fst (post_upload_video env form w)))) /\
  last (loadedData (loadData env' (fst (post_upload_video env form w)))) =
    Some (mkEntry (Some (new_id env)) (Js.text (form_title form))
            (Js.text (form_description form)) (Js.text (form_tags form))
            ("/uploads/" +:+ Upload.storage_filename env f)).
Proof.
  intros Hp Hf Hs Ht Hd Hg F1 F2 F3 F4 L1 L2.
  rewrite (post_upload_video_complete env form w f Hp Hf Hs Ht Hd Hg).
  rewrite F1, F2, F3, F4.
  cbn [fst snd with_video with_file db disk loadedData videos].
  split; [reflexivity|]. split; [reflexivity|].
  split; [apply lookup_insert_eq|].
  split; [apply in_app_iff; right; left; reflexivity|].
  unfold loadData, getConnection, select_videos, close, guard,
    get_db, set_loadedData, ret, throw, bind.
  rewrite L1, L2. cbn. destruct (fault env' Close); cbn;
    rewrite app_nil_r, List.map_app; apply last_snoc.
Qed.

Lemma upload_close_failure_witness :
  snd (post_upload_video
         (mkEnv 1700000000000 (fault_at Close "DPI-1010: not connected")
                7 "s4lt")
         demo_form demo_world) =
    database_error "DPI-1010: not connected" /\
  loadedData
    (fst (post_upload_video
            (mkEnv 1700000000000 (fault_at Close "DPI-1010: not connected")
                   7 "s4lt")
            demo_form demo_world)) = loadedData demo_world.
Proof.
  destruct (upload_close_failure
              (mkEnv 1700000000000 (fault_at Close "DPI-1010: not connected")
                     7 "s4lt")
              demo_env demo_form demo_world demo_file
              "DPI-1010: not connected")
    as (Hr & Hc & _); try reflexivity; [vm_compute; discriminate|].
  split; [exact Hr | exact Hc].
Defined.

(** X7: the stored name depends on the clock and the extension only, so
    two successful uploads in the same millisecond with the same
    extension get the same path: both answers carry it, the second file
    replaces the first on disk, and the store ends with two rows pointing
    at that one path. *)
Theorem same_instant_uploads_collide (env1 env2 : Env)
    (form1 form2 : UploadForm) (w : World) (f1 f2 : FilePart) :
  now env1 = now env2 ->
  Path.extname (originalname f1) = Path.extname (originalname f2) ->
  provided_file form1 = Some f1 -> Upload.fileFilter f1 = Ok true ->
  size f1 <= Upload.fileSize ->
  Js.truthy (form_title form1) = true ->
  Js.truthy (form_description form1) = true ->
  Js.truthy (form_tags form1) = true ->
  fault env1 GetConnection = None -> fault env1 InsertVideo = None ->
  fault env1 Commit = None -> fault env1 Close = None ->
  provided_file form2 = Some f2 -> Upload.fileFilter f2 = Ok true ->
  size f2 <= Upload.fileSize ->
  Js.truthy (form_title form2) = true ->
  Js.truthy (form_description form2) = true ->
  Js.truthy (form_tags form2) = true ->
  fault env2 GetConnection = None -> fault env2 InsertVideo = None ->
  fault env2 Commit = None -> fault env2 Close = None ->
  exists name row1 row2,
    name = Upload.storage_filename env1 f1 /\
    snd (post_upload_video env1 form1 w) = upload_success ("/uploads/" +:+ name) /\
    snd (post_upload_video env2 form2 (fst (post_upload_video env1 form1 w))) =
      upload_success ("/uploads/" +:+ name) /\
    disk (fst (post_upload_video env2 form2
                 (fst (post_upload_video env1 form1 w)))) =
      <["uploads/" +:+ name := size f2]> (disk w) /\
    videos (db (fst (post_upload_video env2 form2
                       (fst (post_upload_video env1 form1 w))))) =
      videos (db w) ++ [row1; row2] /\
    v_video_path row1 = "/uploads/" +:+ name /\
    v_video_path row2 = "/uploads/" +:+ name.
Proof.
  intros Hnow Hext Hp1 Hf1 Hs1 Ht1 Hd1 Hg1 A1 A2 A3 A4
         Hp2 Hf2 Hs2 Ht2 Hd2 Hg2 B1 B2 B3 B4.
  assert (Hname : Upload.storage_filename env2 f2 =
                  Upload.storage_filename env1 f1).
  { unfold Upload.storage_filename. rewrite Hnow, Hext. reflexivity. }
  rewrite (post_upload_video_complete env1 form1 w f1 Hp1 Hf1 Hs1 Ht1 Hd1 Hg1).
  rewrite A1, A2, A3, A4. cbn [fst snd].
  rewrite (post_upload_video_complete env2 form2 _ f2 Hp2 Hf2 Hs2 Ht2 Hd2 Hg2).
  rewrite B1, B2, B3, B4, Hname.
  cbn [fst snd with_entry with_video with_file db disk videos].
  eexists _, _, _. split; [reflexivity|].
  split; [reflexivity|]. split; [reflexivity|].
  split; [apply insert_insert_eq|].
  split; [rewrite <- app_assoc; reflexivity|].
  split; reflexivity.
Qed.

Lemma same_instant_uploads_collide_witness :
  disk (fst (post_upload_video demo_env
               (mkUploadForm (Some "Other") (Some "o") (Some "z")
                  (Some (mkFilePart "holiday.mp4" "video/mp4" 77)))
               (fst (post_upload_video demo_env demo_form demo_world))))
  = <["uploads/1700000000000.mp4" := 77]> (disk demo_world).
Proof.
  assert (Hs1 : 10240 <= Upload.fileSize) by (vm_compute; discriminate).
  assert (Hs2 : 77 <= Upload.fileSize) by (vm_compute; discriminate).
  destruct (same_instant_uploads_collide demo_env demo_env demo_form
              (mkUploadForm (Some "Other") (Some "o") (Some "z")
                 (Some (mkFilePart "holiday.mp4" "video/mp4" 77)))
              demo_world demo_file
              (mkFilePart "holiday.mp4" "video/mp4" 77)
              eq_refl eq_refl
              eq_refl eq_refl Hs1 eq_refl eq_refl eq_refl
              eq_refl eq_refl eq_refl eq_refl
              eq_refl eq_refl Hs2 eq_refl eq_refl eq_refl
              eq_refl eq_refl eq_refl eq_refl)
    as (name & row1 & row2 & -> & _ & _ & Hdisk & _).
  exact Hdisk.
Defined.

(** X8: a load that follows a successful upload puts at the end of the
    cache the entry the upload had appended, now with the id of its row:
    same title, description, tags and videoPath. *)
Theorem reload_after_upload (env env' : Env) (form : UploadForm) (w : World)
    (f : FilePart) :
  provided_file form = Some f -> Upload.fileFilter f = Ok true ->
  size f <= Upload.fileSize ->
  Js.truthy (form_title form) = true ->
  Js.truthy (form_description form) = true ->
  Js.truthy (form_tags form) = true ->
  fault env GetConnection = None -> fault env InsertVideo = None ->
  fault env Commit = None -> fault env Close = None ->
  fault env' GetConnection = None -> fault env' SelectVideos = None ->
  exists e,
    last (loadedData (fst (post_upload_video env form w))) = Some e /\
    id e = None /\
    loadedData (loadData env' (fst (post_upload_video env form w))) =
      List.map entry_of_row (videos (db w)) ++
      [mkEntry (Some (new_id env)) (title e) (description e) (tags e)
               (videoPath e)].
Proof.
  intros Hp Hf Hs Ht Hd Hg F1 F2 F3 F4 L1 L2.
  rewrite (post_upload_video_complete env form w f Hp Hf Hs Ht Hd Hg).
  rewrite F1, F2, F3, F4. cbn [fst].
  eexists. split; [apply last_snoc|]. split; [reflexivity|].
  unfold loadData, getConnection, select_videos, close, guard,
    get_db, set_loadedData, ret, throw, bind.
  rewrite L1, L2. cbn. destruct (fault env' Close); cbn;
    rewrite app_nil_r, List.map_app; reflexivity.
Qed.

Lemma reload_after_upload_witness :
  loadedData (loadData demo_env
                (fst (post_upload_video demo_env demo_form demo_world))) =
  [mkEntry (Some 1) "Intro" "first video" "a,b" "/uploads/1690000000000.mp4";
   mkEntry (Some 7) "Demo" "d" "x,y" "/uploads/1700000000000.mp4"].
Proof.
  assert (Hs : 10240 <= Upload.fileSize) by (vm_compute; discriminate).
  destruct (reload_after_upload demo_env demo_env demo_form demo_world
              demo_file eq_refl eq_refl Hs eq_refl eq_refl eq_refl
              eq_refl eq_refl eq_refl eq_refl eq_refl eq_refl)
    as (e & Hlast & _ & Hload).
  vm_compute in Hlast. injection Hlast as <-. exact Hload.
Defined.

(** ** More on signup and login *)

Section MoreAuth.

Context `{Bcrypt}.

Lemma rows_of_with_user_new (name : string) (row : UserRow) (w : World) :
  rows_of name w = [] -> u_username row = name ->
  rows_of name (with_user row w) = [row].
Proof.
  intros Hnone Hname. unfold rows_of, with_user in *. cbn [db users].
  rewrite List.filter_app, Hnone. cbn.
  rewrite Hname, String.eqb_refl. reflexivity.
Qed.

(** What a signup can do to the world, whatever the request and the
    faults: nothing, or one more row in [users], for a user name that had
    none, holding the hash and not the password sent. *)
Lemma post_signup_effect (env : Env) (req : Credentials) (w : World) :
  fst (post_signup env req w) = w \/
  (Js.truthy (username req) = true /\
   rows_of (Js.text (username req)) w = [] /\
   fst (post_signup env req w) =
   with_user
     (mkUserRow (new_id env) (Js.text (username req))
        (bcrypt_hash (Js.text (password req)) 10 (salt env))) w).
Proof.
  destruct (Js.truthy (username req)) eqn:Hu;
    [| rewrite post_signup_missing by auto; left; reflexivity].
  destruct (Js.truthy (password req)) eqn:Hp;
    [| rewrite post_signup_missing by auto; left; reflexivity].
  rewrite (post_signup_cases env req w Hu Hp).
  destruct (fault env GetConnection); [left; reflexivity|].
  destruct (fault env SelectUser); [left; reflexivity|].
  destruct (rows_of _ w) eqn:Hrows; [|left; reflexivity].
  destruct (fault env InsertUser); [left; reflexivity|].
  destruct (fault env Commit); [left; reflexivity|].
  destruct (fault env Close); right; auto.
Qed.

(** X10: after a signup that created the row (even one answered 500
    because only [close] failed), a login with the same credentials
    succeeds, provided [bcrypt.compare] accepts what [bcrypt.hash]
    produced. *)
Theorem login_after_signup (env1 env2 : Env) (req : Credentials) (w : World) :
  bcrypt_sound ->
  Js.truthy (username req) = true -> Js.truthy (password req) = true ->
  rows_of (Js.text (username req)) w = [] ->
  fault env1 GetConnection = None -> fault env1 SelectUser = None ->
  fault env1 InsertUser = None -> fault env1 Commit = None ->
  fault env2 GetConnection = None -> fault env2 SelectLogin = None ->
  snd (post_login env2 req (fst (post_signup env1 req w))) =
    login_successful /\
  (fault env1 Close = None -> snd (post_signup env1 req w) = registered).
Proof.
  intros Hsound Hu Hp Hnew S1 S2 S3 S4 L1 L2.
  rewrite (post_signup_cases env1 req w Hu Hp), S1, S2, Hnew, S3, S4.
  split.
  - destruct (fault env1 Close); cbn [fst];
      rewrite (post_login_cases env2 req _ Hu Hp), L1, L2;
      rewrite (rows_of_with_user_new _
                 (mkUserRow (new_id env1) (Js.text (username req))
                    (bcrypt_hash (Js.text (password req)) 10 (salt env1)))
                 w Hnew eq_refl);
      cbn [u_password]; rewrite Hsound; reflexivity.
  - intros ->. reflexivity.
Qed.

End MoreAuth.

Lemma append_empty_r (s : string) : s +:+ "" = s.
Proof.
  induction s as [|a s IH]; [reflexivity|].
  change (String a s +:+ "") with (String a (s +:+ "")).
  rewrite IH. reflexivity.
Qed.

Lemma demo_bcrypt_sound : bcrypt_sound (H := demo_bcrypt).
Proof.
  intros p rounds s. cbn [bcrypt_compare bcrypt_hash demo_bcrypt].
  f_equal. apply includes_spec. exists s, "".
  rewrite append_empty_r. reflexivity.
Qed.

Lemma login_after_signup_witness :
  snd (post_login (H := demo_bcrypt) demo_env
         (mkCredentials (Some "bob") (Some "hunter2"))
         (fst (post_signup (H := demo_bcrypt) demo_env
                 (mkCredentials (Some "bob") (Some "hunter2")) demo_world))) =
  login_successful.
Proof.
  apply (login_after_signup (H := demo_bcrypt) demo_env demo_env
           (mkCredentials (Some "bob") (Some "hunter2")) demo_world
           demo_bcrypt_sound eq_refl eq_refl eq_refl
           eq_refl eq_refl eq_refl eq_refl eq_refl eq_refl).
Defined.

(** ** Status of signup and login on any body *)

(** Breaks the hypotheses of a case down and closes it by what they
    say. *)
Ltac close_case :=
  intros;
  repeat match goal with
         | E : _ /\ _ |- _ => destruct E
         | E : _ \/ _ |- _ => destruct E
         | E : exists _, _ |- _ => destruct E
         | E : Ok _ = Ok _ |- _ => injection E as E
         | E : _ :: _ = _ :: _ |- _ => injection E as ? ?
         | E : Js.VString _ = Js.VString _ |- _ => injection E as E
         end;
  subst; try discriminate; try congruence;
  try (exfalso;
       match goal with
       | E : forall s, _ <> Js.VString s |- _ => exact (E _ eq_refl)
       end);
  try solve [repeat eexists; eauto];
  try solve [left; repeat eexists; eauto];
  try solve [right; repeat eexists; eauto].

Section JsonStatus.

Context `{Bcrypt} `{Driver}.

Lemma signup_json_200_inv (env : Env) (req : JsonBody) (w : World) :
  status (snd (signup_json env req w)) = 200 ->
  exists s name,
    Js.truthy_value (j_username req) = true /\
    Js.truthy_value (j_password req) = true /\
    select_rows (j_username req) (users (db w)) = Ok [] /\
    j_password req = Js.VString s /\
    insert_text (j_username req) = Ok name /\
    fault env GetConnection = None /\ fault env SelectUser = None /\
    fault env InsertUser = None /\ fault env Commit = None /\
    fault env Close = None /\
    signup_json env req w =
    (with_user (mkUserRow (new_id env) name (bcrypt_hash s 10 (salt env))) w,
     registered).
Proof.
  intros H200.
  destruct (Js.truthy_value (j_username req)) eqn:Hu;
    [| rewrite signup_json_missing in H200 by auto; discriminate].
  destruct (Js.truthy_value (j_password req)) eqn:Hp;
    [| rewrite signup_json_missing in H200 by auto; discriminate].
  rewrite (signup_json_cases env req w Hu Hp) in *.
  destruct (fault env GetConnection); [discriminate|].
  destruct (fault env SelectUser); [discriminate|].
  destruct (select_rows _ _) as [[|r rest]|]; try discriminate.
  destruct (j_password req) as [| |b|n|s|o] eqn:Ep; try discriminate.
  cbn [bcryptjs_hash] in *.
  destruct (fault env InsertUser); [discriminate|].
  destruct (insert_text _) as [name|]; [|discriminate].
  destruct (fault env Commit); [discriminate|].
  destruct (fault env Close); [discriminate|].
  exists s, name. repeat split.
Qed.

(** X9: a signup is answered 200 exactly when both fields are truthy,
    the lookup answers with no row, the password is a string, the driver
    accepts the user name for the insert and no call into the store
    fails; it then adds one row to [users], last, with the user name as
    the driver stores it and the bcrypt hash (cost 10) of the password,
    and leaves the videos, the disk and the cache alone. A truthy password
    that is not a string is never answered 200. *)
Theorem signup_status_200_iff (env : Env) (req : JsonBody) (w : World) :
  (status (snd (signup_json env req w)) = 200 <->
   Js.truthy_value (j_username req) = true /\
   Js.truthy_value (j_password req) = true /\
   select_rows (j_username req) (users (db w)) = Ok [] /\
   (exists s, j_password req = Js.VString s) /\
   (exists name, insert_text (j_username req) = Ok name) /\
   fault env GetConnection = None /\ fault env SelectUser = None /\
   fault env InsertUser = None /\ fault env Commit = None /\
   fault env Close = None) /\
  (status (snd (signup_json env req w)) = 200 ->
   exists s name,
     j_password req = Js.VString s /\
     insert_text (j_username req) = Ok name /\
     snd (signup_json env req w) = registered /\
     users (db (fst (signup_json env req w))) =
       users (db w) ++
       [mkUserRow (new_id env) name (bcrypt_hash s 10 (salt env))] /\
     videos (db (fst (signup_json env req w))) = videos (db w) /\
     disk (fst (signup_json env req w)) = disk w /\
     loadedData (fst (signup_json env req w)) = loadedData w) /\
  ((forall s, j_password req <> Js.VString s) ->
   status (snd (signup_json env req w)) <> 200).
Proof.
  split; [split|split].
  - intros H200.
    destruct (signup_json_200_inv env req w H200)
      as (s & name & Hu & Hp & Hsel & Hs & Hins & F1 & F2 & F3 & F4 & F5 & _).
    repeat split; eauto.
  - intros (Hu & Hp & Hsel & [s Hs] & [name Hins] & F1 & F2 & F3 & F4 & F5).
    rewrite (signup_json_cases env req w Hu Hp), F1, F2, Hsel, Hs.
    cbn [bcryptjs_hash]. rewrite F3, Hins, F4, F5. reflexivity.
  - intros H200.
    destruct (signup_json_200_inv env req w H200)
      as (s & name & _ & _ & _ & Hs & Hins & _ & _ & _ & _ & _ & E).
    exists s, name. rewrite E. repeat split; assumption.
  - intros Hns H200.
    destruct (signup_json_200_inv env req w H200)
      as (s & name & _ & _ & _ & Hs & _).
    exact (Hns s Hs).
Qed.

Lemma login_json_world (env : Env) (req : JsonBody) (w : World) :
  fst (login_json env req w) = w.
Proof.
  destruct (Js.truthy_value (j_username req)) eqn:Hu;
    [| rewrite login_json_missing by auto; reflexivity].
  destruct (Js.truthy_value (j_password req)) eqn:Hp;
    [| rewrite login_json_missing by auto; reflexivity].
  rewrite (login_json_cases env req w Hu Hp).
  destruct (fault env GetConnection); [reflexivity|].
  destruct (fault env SelectLogin); [reflexivity|].
  destruct (select_rows _ _) as [[|row rest]|]; try reflexivity.
  destruct (bcryptjs_compare _ _) as [[|]|]; reflexivity.
Qed.

(** X11: a login never changes the world. It is answered 400 exactly
    when a field is missing or falsy, and 500 exactly when both are
    truthy and something inside the [try] throws: the connection, the
    query (a store fault, or a bind value the driver refuses), or
    [bcrypt.compare] on the row found (a password that is not a string,
    or a stored text it rejects); the body is then the fixed "Error
    logging in.". *)
Theorem login_status (env : Env) (req : JsonBody) (w : World) :
  fst (login_json env req w) = w /\
  (status (snd (login_json env req w)) = 400 <->
   Js.truthy_value (j_username req) = false \/
   Js.truthy_value (j_password req) = false) /\
  (status (snd (login_json env req w)) = 500 <->
   Js.truthy_value (j_username req) = true /\
   Js.truthy_value (j_password req) = true /\
   (fault env GetConnection <> None \/ fault env SelectLogin <> None \/
    (exists m, select_rows (j_username req) (users (db w)) = Throw m) \/
    (exists row rest m,
        select_rows (j_username req) (users (db w)) = Ok (row :: rest) /\
        bcryptjs_compare (j_password req) (u_password row) = Throw m))) /\
  (status (snd (login_json env req w)) = 500 ->
   snd (login_json env req w) = login_error) /\
  (forall row rest,
      Js.truthy_value (j_username req) = true ->
      Js.truthy_value (j_password req) = true ->
      fault env GetConnection = None -> fault env SelectLogin = None ->
      select_rows (j_username req) (users (db w)) = Ok (row :: rest) ->
      (forall s, j_password req <> Js.VString s) ->
      status (snd (login_json env req w)) = 500).
Proof.
  split; [apply login_json_world|].
  destruct (Js.truthy_value (j_username req)) eqn:Hu;
    [| rewrite login_json_missing by auto; cbn; naive_solver].
  destruct (Js.truthy_value (j_password req)) eqn:Hp;
    [| rewrite login_json_missing by auto; cbn; naive_solver].
  rewrite (login_json_cases env req w Hu Hp).
  destruct (fault env GetConnection) eqn:F1; [cbn; naive_solver|].
  destruct (fault env SelectLogin) eqn:F2; [cbn; naive_solver|].
  destruct (select_rows _ _) as [[|row rest]|m] eqn:Hsel;
    [cbn; naive_solver | | cbn; naive_solver].
  assert (Hns : (forall s, j_password req <> Js.VString s) ->
                exists m, bcryptjs_compare (j_password req) (u_password row)
                          = Throw m).
  { intros Hno. destruct (j_password req); cbn; eauto.
    destruct (Hno s eq_refl). }
  destruct (bcryptjs_compare _ _) as [[|]|m] eqn:Hc; cbn;
    repeat split; try discriminate;
    try (intros (_ & _ & [? | [? | [[? ?] | (? & ? & ? & [= <- <-] & ?)]]]);
         congruence);
    try naive_solver.
Qed.

(** X12: with two truthy fields and a store that answers, a login is
    answered in exactly one of three ways: "Login successful!" when the
    first row found has a hash that [bcrypt.compare] accepts for the
    password, a string; 401 when no row is found or the comparison says
    no; 500 when the driver refuses the bind value or the comparison
    throws, as it does on every password that is not a string. *)
Theorem login_success_iff (env : Env) (req : JsonBody) (w : World) :
  Js.truthy_value (j_username req) = true ->
  Js.truthy_value (j_password req) = true ->
  fault env GetConnection = None -> fault env SelectLogin = None ->
  (snd (login_json env req w) = login_successful <->
   exists row rest s,
     select_rows (j_username req) (users (db w)) = Ok (row :: rest) /\
     j_password req = Js.VString s /\
     bcrypt_compare s (u_password row) = Ok true) /\
  (snd (login_json env req w) = invalid_credentials <->
   select_rows (j_username req) (users (db w)) = Ok [] \/
   exists row rest s,
     select_rows (j_username req) (users (db w)) = Ok (row :: rest) /\
     j_password req = Js.VString s /\
     bcrypt_compare s (u_password row) = Ok false) /\
  (snd (login_json env req w) = login_error <->
   (exists m, select_rows (j_username req) (users (db w)) = Throw m) \/
   exists row rest m,
     select_rows (j_username req) (users (db w)) = Ok (row :: rest) /\
     bcryptjs_compare (j_password req) (u_password row) = Throw m) /\
  (forall row rest,
      select_rows (j_username req) (users (db w)) = Ok (row :: rest) ->
      (forall s, j_password req <> Js.VString s) ->
      snd (login_json env req w) = login_error).
Proof.
  intros Hu Hp F1 F2.
  rewrite (login_json_cases env req w Hu Hp), F1, F2.
  destruct (select_rows _ _) as [[|row rest]|m] eqn:Hsel;
    [cbn; repeat split; close_case |
     | cbn; repeat split; close_case].
  destruct (j_password req) as [| |b|n|s|o] eqn:Ep; cbn [bcryptjs_compare].
  5:{ destruct (bcrypt_compare s (u_password row)) as [[|]|m] eqn:Hc; cbn;
        repeat split; close_case. }
  all: cbn; repeat split; close_case.
Qed.

End JsonStatus.

Lemma login_success_iff_witness :
  snd (login_json (H := demo_bcrypt) (H0 := demo_driver) demo_env
         (mkJsonBody (Js.VString "alice") (Js.VString "secret123"))
         demo_world) = login_successful <->
  exists row rest s,
    select_rows (H := demo_driver) (Js.VString "alice")
      (users (db demo_world)) = Ok (row :: rest) /\
    Js.VString "secret123" = Js.VString s /\
    bcrypt_compare (Bcrypt := demo_bcrypt) s (u_password row) = Ok true.
Proof.
  apply (login_success_iff (H := demo_bcrypt) (H0 := demo_driver) demo_env
           (mkJsonBody (Js.VString "alice") (Js.VString "secret123"))
           demo_world eq_refl eq_refl eq_refl eq_refl).
Defined.

(** ** Invariants of the server over any sequence of requests *)

(** What an upload can do to the store and the cache. *)
Lemma post_upload_video_effect (env : Env) (form : UploadForm) (w : World) :
  exists av ac,
    users (db (fst (post_upload_video env form w))) = users (db w) /\
    videos (db (fst (post_upload_video env form w))) = videos (db w) ++ av /\
    loadedData (fst (post_upload_video env form w)) = loadedData w ++ ac /\
    (forall e, In e ac ->
       exists row, In row av /\
         v_title row = title e /\ v_description row = description e /\
         v_tags row = tags e /\ v_video_path row = videoPath e) /\
    ((ac = [] /\ status (snd (post_upload_video env form w)) <> 200) \/
     (exists e, ac = [e] /\ status (snd (post_upload_video env form w)) = 200)).
Proof.
  assert (Hnone : forall (w' : World) (r : Response),
             users (db w') = users (db w) -> videos (db w') = videos (db w) ->
             loadedData w' = loadedData w -> status r <> 200 ->
             exists av ac,
               users (db (fst (w', r))) = users (db w) /\
               videos (db (fst (w', r))) = videos (db w) ++ av /\
               loadedData (fst (w', r)) = loadedData w ++ ac /\
               (forall e, In e ac ->
                  exists row, In row av /\
                    v_title row = title e /\
                    v_description row = description e /\
                    v_tags row = tags e /\ v_video_path row = videoPath e) /\
               ((ac = [] /\ status (snd (w', r)) <> 200) \/
                (exists e, ac = [e] /\ status (snd (w', r)) = 200))).
  { intros w' r Hu Hv Hc Hs. exists [], []. cbn [fst snd].
    rewrite !app_nil_r. repeat split; auto. intros e []. }
  destruct (single_outcomes env form w)
    as [[Hp E] | (f & Hp & [[Hf E] | [(Hf & Hs & E) | (Hf & Hs & E)]])].
  - rewrite (post_upload_video_no_file env form w Hp).
    apply Hnone; auto; discriminate.
  - unfold post_upload_video. rewrite E. apply Hnone; auto; discriminate.
  - unfold post_upload_video. rewrite E. apply Hnone; auto; discriminate.
  - destruct (Js.truthy (form_title form)) eqn:Ht;
      [| rewrite (post_upload_video_stored env form w f Hp Hf Hs),
           handler_missing by (simpl; auto);
         apply Hnone; auto; discriminate].
    destruct (Js.truthy (form_description form)) eqn:Hd;
      [| rewrite (post_upload_video_stored env form w f Hp Hf Hs),
           handler_missing by (simpl; auto);
         apply Hnone; auto; discriminate].
    destruct (Js.truthy (form_tags form)) eqn:Hg;
      [| rewrite (post_upload_video_stored env form w f Hp Hf Hs),
           handler_missing by (simpl; auto);
         apply Hnone; auto; discriminate].
    rewrite (post_upload_video_complete env form w f Hp Hf Hs Ht Hd Hg).
    destruct (fault env GetConnection); [apply Hnone; auto; discriminate|].
    destruct (fault env InsertVideo); [apply Hnone; auto; discriminate|].
    destruct (fault env Commit); [apply Hnone; auto; discriminate|].
    destruct (fault env Close).
    + eexists [_], []. cbn [fst snd with_video with_file db users videos
                              loadedData].
      rewrite app_nil_r. do 3 (split; [reflexivity|]).
      split; [intros e []|]. left. split; [reflexivity | discriminate].
    + eexists [_], [_]. cbn [fst snd with_entry with_video with_file db users
                               videos loadedData].
      do 3 (split; [reflexivity|]). split.
      * intros e [<- | []]. eexists. split; [left; reflexivity|].
        repeat split.
      * right. eexists. split; reflexivity.
Qed.

Section ServerInvariants.

Context `{Bcrypt}.

Lemma serve_cons (env : Env) (rq : Request) (rest : list (Env * Request))
    (w : World) :
  serve ((env, rq) :: rest) w =
  (fst (serve rest (fst (handle env rq w))),
   snd (handle env rq w) :: snd (serve rest (fst (handle env rq w)))).
Proof.
  cbn [serve]. destruct (handle env rq w) as [w1 r].
  cbn [fst snd]. destruct (serve rest w1). reflexivity.
Qed.

(** A property kept by every request is kept by every trace. *)
Lemma serve_invariant (P : World -> Prop) :
  (forall env rq w, P w -> P (fst (handle env rq w))) ->
  forall trace w, P w -> P (fst (serve trace w)).
Proof.
  intros Hstep trace. induction trace as [|[env rq] rest IH]; intros w Hw.
  - exact Hw.
  - rewrite serve_cons. cbn [fst]. apply IH, Hstep, Hw.
Qed.

Lemma grows_refl (w : World) : grows w w.
Proof. repeat split; reflexivity. Qed.

Lemma grows_trans (w1 w2 w3 : World) :
  grows w1 w2 -> grows w2 w3 -> grows w1 w3.
Proof.
  intros (A1 & A2 & A3) (B1 & B2 & B3).
  repeat split; etransitivity; eassumption.
Qed.

Lemma handle_grows (env : Env) (rq : Request) (w : World) :
  grows w (fst (handle env rq w)).
Proof.
  destruct rq as [|form|req|req]; cbn [handle].
  - apply grows_refl.
  - destruct (post_upload_video_effect env form w)
      as (av & ac & Hu & Hv & Hc & _).
    unfold grows. rewrite Hu, Hv, Hc.
    repeat split; (reflexivity || apply prefix_app_r; reflexivity).
  - destruct (post_signup_effect env req w) as [-> | (_ & _ & ->)];
      [apply grows_refl|].
    unfold grows, with_user. cbn [db users videos loadedData].
    repeat split; (reflexivity || apply prefix_app_r; reflexivity).
  - rewrite post_login_world. apply grows_refl.
Qed.

(** X13: whatever the requests and the faults, the server only appends:
    the rows of [users] and [videos] and the entries of the cache that
    were there before a trace are still there after it, unchanged and in
    the same order, at the front. *)
Theorem serve_grows (trace : list (Env * Request)) (w : World) :
  grows w (fst (serve trace w)).
Proof.
  revert w. induction trace as [|[env rq] rest IH]; intros w.
  - apply grows_refl.
  - rewrite serve_cons. cbn [fst].
    eapply grows_trans; [apply handle_grows | apply IH].
Qed.

Lemma handle_unique_usernames (env : Env) (rq : Request) (w : World) :
  unique_usernames w -> unique_usernames (fst (handle env rq w)).
Proof.
  intros Hw. destruct rq as [|form|req|req]; cbn [handle].
  - exact Hw.
  - destruct (post_upload_video_effect env form w) as (av & ac & Hu & _).
    unfold unique_usernames. rewrite Hu. exact Hw.
  - destruct (post_signup_effect env req w) as [-> | (_ & Hnew & ->)];
      [exact Hw|].
    unfold unique_usernames, with_user in *. cbn [db users].
    rewrite List.map_app. apply NoDup_app. split; [exact Hw|]. split.
    + intros name Hin [<- | []]%list_elem_of_In.
      apply list_elem_of_In, in_map_iff in Hin as (r & Hname & Hr).
      exact (proj1 (rows_of_nil _ _) Hnew r Hr Hname).
    + cbn. apply NoDup_singleton.
  - rewrite post_login_world. exact Hw.
Qed.

(** X14: served one after the other, the requests keep the user names of
    [users] pairwise distinct: a signup inserts only after its lookup
    found no row. *)
Theorem serve_unique_usernames (trace : list (Env * Request)) (w : World) :
  unique_usernames w -> unique_usernames (fst (serve trace w)).
Proof.
  apply (serve_invariant unique_usernames). intros env rq w'.
  apply handle_unique_usernames.
Qed.

Lemma backed_by_row_grows (w w' : World) (e : VideoEntry) :
  videos (db w) `prefix_of` videos (db w') ->
  backed_by_row w e -> backed_by_row w' e.
Proof.
  intros [k Hk] (row & Hin & Hrow). exists row. split; [|exact Hrow].
  rewrite Hk. apply in_app_iff. left. exact Hin.
Qed.

Lemma handle_backed (env : Env) (rq : Request) (w : World) :
  Forall (backed_by_row w) (loadedData w) ->
  Forall (backed_by_row (fst (handle env rq w)))
         (loadedData (fst (handle env rq w))).
Proof.
  intros Hw.
  assert (Hold : Forall (backed_by_row (fst (handle env rq w))) (loadedData w)).
  { eapply Forall_impl; [exact Hw|]. intros e.
    apply backed_by_row_grows. apply handle_grows. }
  destruct rq as [|form|req|req]; cbn [handle] in *.
  - exact Hold.
  - destruct (post_upload_video_effect env form w)
      as (av & ac & Hu & Hv & Hc & Hback & _).
    rewrite Hc. apply Forall_app. split; [exact Hold|].
    apply Forall_forall. intros e He%list_elem_of_In.
    destruct (Hback e He) as (row & Hin & Hrow).
    exists row. split; [|exact Hrow].
    rewrite Hv. apply in_app_iff. right. exact Hin.
  - destruct (post_signup_effect env req w) as [E | (_ & _ & E)];
      rewrite E in *; exact Hold.
  - rewrite post_login_world in *. exact Hold.
Qed.

Lemma loadData_parts (env : Env) (w : World) :
  db (loadData env w) = db w /\
  (loadedData (loadData env w) = List.map entry_of_row (videos (db w)) \/
   loadedData (loadData env w) = loadedData w).
Proof.
  unfold loadData, getConnection, select_videos, close, guard,
    get_db, set_loadedData, ret, throw, bind.
  destruct (fault env GetConnection); [cbn; auto|].
  destruct (fault env SelectVideos); cbn;
    destruct (fault env Close); cbn; rewrite ?app_nil_r; auto.
Qed.

Lemma loaded_backed (env : Env) (d : Db) (files : gmap string Z) :
  Forall (backed_by_row (loadData env (initial_world d files)))
         (loadedData (loadData env (initial_world d files))).
Proof.
  destruct (loadData_parts env (initial_world d files)) as (Hdb & Hc).
  apply Forall_forall. intros e He%list_elem_of_In.
  destruct Hc as [Hc | Hc]; rewrite Hc in He; [|destruct He].
  apply in_map_iff in He as (row & <- & Hin).
  exists row. rewrite Hdb. repeat split. exact Hin.
Qed.

(** X15: from the start of the process on, whatever is served, every
    entry of the cache has a row in [videos] with the same title,
    description, tags and path; the same holds from a start on which
    [loadData] had been run. *)
Theorem serve_cache_backed (env0 : Env) (d : Db) (files : gmap string Z)
    (trace : list (Env * Request)) (e : VideoEntry) :
  (In e (loadedData (fst (serve trace (initial_world d files)))) ->
   backed_by_row (fst (serve trace (initial_world d files))) e) /\
  (In e (loadedData
           (fst (serve trace (loadData env0 (initial_world d files))))) ->
   backed_by_row
     (fst (serve trace (loadData env0 (initial_world d files)))) e).
Proof.
  assert (Hany : forall w, Forall (backed_by_row w) (loadedData w) ->
                 In e (loadedData (fst (serve trace w))) ->
                 backed_by_row (fst (serve trace w)) e).
  { intros w Hw He.
    assert (Hall : Forall (backed_by_row (fst (serve trace w)))
                          (loadedData (fst (serve trace w)))).
    { apply (serve_invariant
               (fun w => Forall (backed_by_row w) (loadedData w)));
        [intros env rq w'; apply handle_backed | exact Hw]. }
    rewrite Forall_forall in Hall. apply Hall, list_elem_of_In, He. }
  split; apply Hany; [constructor | apply loaded_backed].
Qed.

(** X16: over any trace the cache grows by exactly one entry for each
    upload answered 200, and by nothing else. *)
Theorem serve_cache_length (trace : list (Env * Request)) (w : World) :
  List.length (loadedData (fst (serve trace w))) =
  (List.length (loadedData w) +
   successful_uploads trace (snd (serve trace w)))%nat.
Proof.
  revert w. induction trace as [|[env rq] rest IH]; intros w.
  - cbn. lia.
  - rewrite serve_cons. cbn [fst snd]. rewrite IH.
    assert (Hstep : List.length (loadedData (fst (handle env rq w))) =
                    Nat.add (List.length (loadedData w))
                      match rq with
                      | UploadVideo _ =>
                        if status (snd (handle env rq w)) =? 200
                        then 1%nat else O
                      | _ => O
                      end).
    { destruct rq as [|form|req|req]; cbn [handle].
      - cbn. lia.
      - destruct (post_upload_video_effect env form w)
          as (av & ac & _ & _ & Hc & _ & [[-> Hs] | (e & -> & Hs)]);
          rewrite Hc, List.length_app; cbn [List.length].
        + apply Z.eqb_neq in Hs. rewrite Hs. reflexivity.
        + rewrite Hs. reflexivity.
      - destruct (post_signup_effect env req w) as [-> | (_ & _ & ->)];
          cbn; lia.
      - rewrite post_login_world. lia. }
    rewrite Hstep. destruct rq; cbn [successful_uploads]; lia.
Qed.

End ServerInvariants.

Lemma serve_unique_usernames_witness :
  unique_usernames
    (fst (serve (H := demo_bcrypt)
            [(demo_env, Signup (mkCredentials (Some "bob") (Some "hunter2")));
             (demo_env, Signup (mkCredentials (Some "bob") (Some "again")));
             (demo_env, UploadVideo demo_form)]
            demo_world)).
Proof.
  apply (serve_unique_usernames (H := demo_bcrypt)).
  change (NoDup ["alice"]). apply NoDup_singleton.
Defined.

Lemma serve_cache_backed_witness :
  backed_by_row
    (fst (serve (H := demo_bcrypt) [(demo_env, UploadVideo demo_form)]
            (initial_world demo_db demo_files)))
    (mkEntry None "Demo" "d" "x,y" "/uploads/1700000000000.mp4").
Proof.
  apply (proj1 (serve_cache_backed (H := demo_bcrypt) demo_env demo_db
                  demo_files [(demo_env, UploadVideo demo_form)] _)).
  vm_compute. left. reflexivity.
Defined.

(** X17: when the gates pass and the fields are there but the
    connection, the insert or the commit fails, the file that the
    middleware wrote stays on disk although no row refers to it: the
    handler answers 500 and removes nothing. *)
Theorem upload_store_failure_orphan (env : Env) (form : UploadForm)
    (w : World) (f : FilePart) :
  provided_file form = Some f -> Upload.fileFilter f = Ok true ->
  size f <= Upload.fileSize ->
  Js.truthy (form_title form) = true ->
  Js.truthy (form_description form) = true ->
  Js.truthy (form_tags form) = true ->
  fault env GetConnection <> None \/ fault env InsertVideo <> None \/
  fault env Commit <> None ->
  status (snd (post_upload_video env form w)) = 500 /\
  disk (fst (post_upload_video env form w)) =
    <["uploads/" +:+ Upload.storage_filename env f := size f]> (disk w) /\
  disk (fst (post_upload_video env form w))
    !! ("uploads/" +:+ Upload.storage_filename env f) = Some (size f) /\
  videos (db (fst (post_upload_video env form w))) = videos (db w).
Proof.
  intros Hp Hf Hs Ht Hd Hg Hfault.
  rewrite (post_upload_video_complete env form w f Hp Hf Hs Ht Hd Hg).
  destruct (fault env GetConnection);
    [| destruct (fault env InsertVideo);
       [| destruct (fault env Commit);
          [| destruct Hfault as [? | [? | ?]]; congruence ] ] ];
    cbn [fst snd with_file db disk videos];
    (split; [reflexivity|]); (split; [reflexivity|]);
    (split; [apply lookup_insert_eq | reflexivity]).
Qed.

Lemma upload_store_failure_orphan_witness :
  disk (fst (post_upload_video
               (mkEnv 1700000000000 (fault_at GetConnection "ORA-12541")
                      7 "s4lt")
               demo_form demo_world))
    !! "uploads/1700000000000.mp4" = Some 10240 /\
  videos (db (fst (post_upload_video
                     (mkEnv 1700000000000 (fault_at GetConnection "ORA-12541")
                            7 "s4lt")
                     demo_form demo_world))) = videos (db demo_world).
Proof.
  assert (Hs : 10240 <= Upload.fileSize) by (vm_compute; discriminate).
  assert (Hfault : fault (mkEnv 1700000000000
                            (fault_at GetConnection "ORA-12541") 7 "s4lt")
                         GetConnection <> None) by discriminate.
  destruct (upload_store_failure_orphan
              (mkEnv 1700000000000 (fault_at GetConnection "ORA-12541")
                     7 "s4lt")
              demo_form demo_world demo_file
              eq_refl eq_refl Hs eq_refl eq_refl eq_refl
              (or_introl Hfault))
    as (_ & _ & Hdisk & Hv).
  split; [exact Hdisk | exact Hv].
Defined.

Section SignupStatus.

Context `{Bcrypt}.

(** X18: a signup is answered 400 in exactly two situations, told apart
    by the message: a credential is missing or empty ("Please provide
    both username and password.", the store is not consulted), or the
    credentials are there, the lookup went through and found a row
    ("Username already exists."). In both the world is unchanged. *)
Theorem signup_status_400_iff (env : Env) (req : Credentials) (w : World) :
  (status (snd (post_signup env req w)) = 400 <->
   (Js.truthy (username req) = false \/ Js.truthy (password req) = false) \/
   (Js.truthy (username req) = true /\ Js.truthy (password req) = true /\
    fault env GetConnection = None /\ fault env SelectUser = None /\
    rows_of (Js.text (username req)) w <> [])) /\
  (Js.truthy (username req) = false \/ Js.truthy (password req) = false ->
   post_signup env req w = (w, missing_credentials)) /\
  (Js.truthy (username req) = true -> Js.truthy (password req) = true ->
   status (snd (post_signup env req w)) = 400 ->
   post_signup env req w = (w, username_exists)).
Proof.
  split; [|split; [apply post_signup_missing|]].
  - destruct (Js.truthy (username req)) eqn:Hu;
      [| rewrite post_signup_missing by auto; cbn; split; auto].
    destruct (Js.truthy (password req)) eqn:Hp;
      [| rewrite post_signup_missing by auto; cbn; split; auto].
    rewrite (post_signup_cases env req w Hu Hp).
    destruct (fault env GetConnection);
      [cbn; split; [discriminate
                   | intros [[?|?] | (_&_&?&_)]; discriminate]|].
    destruct (fault env SelectUser);
      [cbn; split; [discriminate
                   | intros [[?|?] | (_&_&_&?&_)]; discriminate]|].
    destruct (rows_of _ w) as [|row rest].
    + destruct (fault env InsertUser);
        [| destruct (fault env Commit); [| destruct (fault env Close)]];
        cbn; (split; [discriminate|]);
        intros [[?|?] | (_&_&_&_&?)]; discriminate || contradiction.
    + cbn. split; [|reflexivity]. intros _. right.
      repeat split; discriminate.
  - intros Hu Hp. rewrite (post_signup_cases env req w Hu Hp).
    destruct (fault env GetConnection); [discriminate|].
    destruct (fault env SelectUser); [discriminate|].
    destruct (rows_of _ w); [|reflexivity].
    destruct (fault env InsertUser); [discriminate|].
    destruct (fault env Commit); [discriminate|].
    destruct (fault env Close); discriminate.
Qed.

End SignupStatus.

(** ** Directories in the declared name *)

Section DirectoryPrefix.

Variables pre base : string.

Hypothesis base_no_slash : Js.contains_char "/" base = false.

Lemma contains_char_false_get (c : ascii) (s : string) :
  Js.contains_char c s = false -> forall k, String.get k s <> Some c.
Proof.
  induction s as [|a s IH]; intros Hc k; [destruct k; discriminate|].
  cbn [Js.contains_char] in Hc. apply orb_false_iff in Hc as [Ha Hs].
  destruct k as [|k]; cbn [String.get].
  - intros [= ->]. rewrite Ascii.eqb_refl in Ha. discriminate.
  - apply IH, Hs.
Qed.

Lemma get_behind_prefix (j : nat) :
  String.get (S (String.length pre) + j) (pre +:+ String "/" base) =
  String.get j base.
Proof.
  induction pre as [|a p IH]; [reflexivity|].
  change (String a p +:+ String "/" base)
    with (String a (p +:+ String "/" base)).
  cbn [String.length Nat.add String.get]. exact IH.
Qed.

Lemma get_prefix_slash :
  String.get (String.length pre) (pre +:+ String "/" base) = Some "/"%char.
Proof.
  induction pre as [|a p IH]; [reflexivity|].
  change (String a p +:+ String "/" base)
    with (String a (p +:+ String "/" base)).
  cbn [String.length String.get]. exact IH.
Qed.

Lemma substring_behind_prefix (n m : nat) :
  String.substring (S (String.length pre) + n) m (pre +:+ String "/" base) =
  String.substring n m base.
Proof.
  induction pre as [|a p IH]; [reflexivity|].
  change (String a p +:+ String "/" base)
    with (String a (p +:+ String "/" base)).
  cbn [String.length Nat.add String.substring]. exact IH.
Qed.

Lemma length_behind_prefix :
  String.length (pre +:+ String "/" base) =
  (S (String.length pre) + String.length base)%nat.
Proof. rewrite length_append. cbn [String.length]. lia. Qed.

Lemma get_some_lt (s : string) :
  forall j, (j < String.length s)%nat -> exists c, String.get j s = Some c.
Proof.
  induction s as [|a s IH]; intros j Hj; cbn [String.length] in Hj; [lia|].
  destruct j as [|j]; cbn [String.get]; [eauto|]. apply IH. lia.
Qed.

Lemma scan_char_shifted (c : ascii) (j off : Z) (st st' : Path.Scan) :
  0 <= j -> 0 < off -> scan_shifted off st st' ->
  scan_shifted off (Path.scan_char c j st) (Path.scan_char c (j + off) st').
Proof.
  intros Hj Hoff.
  destruct st as [sd sp e ms pd], st' as [sd' sp' e' ms' pd'].
  unfold scan_shifted, Path.scan_char. cbn [Path.startDot Path.startPart
    Path.end_ Path.matchedSlash Path.preDotState].
  intros (-> & -> & He & -> & -> & -> & -> & Hsd).
  destruct Hsd as [[-> ->] | [Hsd ->]];
    unfold Path.mark_end, Path.set_startDot, Path.set_preDotState; cbn;
    repeat (match goal with
            | |- context [if ?b then _ else _] => destruct b eqn:?
            end; cbn);
    repeat match goal with
           | E : negb _ = true |- _ => apply negb_true_iff in E
           | E : negb _ = false |- _ => apply negb_false_iff in E
           | E : (_ =? _) = true |- _ => apply Z.eqb_eq in E
           | E : (_ =? _) = false |- _ => apply Z.eqb_neq in E
           end;
    cbn in *; repeat split; auto; lia.
Qed.

Lemma scan_behind_prefix (n : nat) :
  forall st st',
    (n <= String.length base)%nat ->
    scan_shifted (Z.of_nat (S (String.length pre))) st st' ->
    scan_shifted_end (Z.of_nat (S (String.length pre)))
      (Path.scan base n st)
      (Path.scan (pre +:+ String "/" base) (S (String.length pre) + n) st').
Proof.
  induction n as [|j IH]; intros st st' Hn Hrel.
  - rewrite Nat.add_0_r. cbn [Path.scan]. rewrite get_prefix_slash.
    cbn [Ascii.eqb Bool.eqb andb].
    destruct Hrel as (Hm & Hm' & He & He' & Hp & Hsp & Hsp' & Hsd).
    rewrite Hm'. cbn [negb].
    destruct st as [sd sp e ms pd], st' as [sd' sp' e' ms' pd'].
    unfold scan_shifted_end. cbn in *. repeat split; auto; lia.
  - rewrite Nat.add_succ_r. cbn [Path.scan]. rewrite get_behind_prefix.
    destruct (get_some_lt base j) as [c Hc]; [lia|]. rewrite Hc.
    assert (Hne : Ascii.eqb c "/" = false).
    { apply Ascii.eqb_neq. intros ->.
      exact (contains_char_false_get _ _ base_no_slash j Hc). }
    rewrite Hne.
    replace (Z.of_nat (S (String.length pre) + j))
      with (Z.of_nat j + Z.of_nat (S (String.length pre))) by lia.
    apply IH; [lia|]. apply scan_char_shifted; [lia | lia | exact Hrel].
Qed.

Lemma scan_whole_behind_prefix :
  base <> "" ->
  scan_shifted_end (Z.of_nat (S (String.length pre)))
    (Path.scan base (String.length base) Path.scan0)
    (Path.scan (pre +:+ String "/" base)
       (String.length (pre +:+ String "/" base)) Path.scan0).
Proof.
  intros Hne. rewrite length_behind_prefix.
  destruct (String.length base) as [|j] eqn:Hlen;
    [destruct base; [contradiction | discriminate]|].
  rewrite Nat.add_succ_r. cbn [Path.scan]. rewrite get_behind_prefix.
  destruct (get_some_lt base j) as [c Hc]; [lia|]. rewrite Hc.
  assert (Hslash : Ascii.eqb c "/" = false).
  { apply Ascii.eqb_neq. intros ->.
    exact (contains_char_false_get _ _ base_no_slash j Hc). }
  rewrite Hslash.
  replace (Z.of_nat (S (String.length pre) + j))
    with (Z.of_nat j + Z.of_nat (S (String.length pre))) by lia.
  apply scan_behind_prefix; [lia|].
  unfold scan_shifted, Path.scan_char, Path.scan0.
  cbn [Path.end_ Z.eqb]. destruct (Ascii.eqb c "."); cbn;
    repeat split; auto; try lia; right; split; lia.
Qed.

End DirectoryPrefix.

(** X19: whatever directories the client puts in front of a file name
    (a non-empty name without a slash), the extension is that of the name
    alone, so the stored file gets the same name as if the directories
    had not been sent. *)
Theorem extname_ignores_directory (env : Env) (pre base mime : string)
    (bytes : Z) :
  base <> "" -> Js.contains_char "/" base = false ->
  Path.extname (pre +:+ String "/" base) = Path.extname base /\
  Upload.storage_filename env
    (mkFilePart (pre +:+ String "/" base) mime bytes) =
  Upload.storage_filename env (mkFilePart base mime bytes).
Proof.
  intros Hne Hns.
  assert (E : Path.extname (pre +:+ String "/" base) = Path.extname base).
  { unfold Path.extname.
    pose proof (scan_whole_behind_prefix pre base Hns Hne) as Hs.
    set (st := Path.scan base (String.length base) Path.scan0) in *.
    set (st' := Path.scan (pre +:+ String "/" base) _ Path.scan0) in *.
    destruct Hs as (He & He' & Hp & Hsp & Hsp' & Hsd).
    rewrite He', Hp, Hsp, Hsp'.
    destruct Hsd as [[Hd Hd'] | [Hd Hd']]; rewrite Hd'.
    - rewrite Hd. reflexivity.
    - assert (B1 : (Path.startDot st + Z.of_nat (S (String.length pre)) =? -1)
                   = (Path.startDot st =? -1)).
      { destruct (Z.eqb_spec (Path.startDot st) (-1)); [lia|].
        apply Z.eqb_neq. lia. }
      assert (B2 : (Path.end_ st + Z.of_nat (S (String.length pre)) =? -1)
                   = (Path.end_ st =? -1)).
      { destruct (Z.eqb_spec (Path.end_ st) (-1)); [lia|].
        apply Z.eqb_neq. lia. }
      assert (B3 : (Path.startDot st + Z.of_nat (S (String.length pre)) =?
                    Path.end_ st + Z.of_nat (S (String.length pre)) - 1)
                   = (Path.startDot st =? Path.end_ st - 1)).
      { destruct (Z.eqb_spec (Path.startDot st) (Path.end_ st - 1));
          [apply Z.eqb_eq | apply Z.eqb_neq]; lia. }
      assert (B4 : (Path.startDot st + Z.of_nat (S (String.length pre)) =?
                    Z.of_nat (S (String.length pre)) + 1)
                   = (Path.startDot st =? 0 + 1)).
      { destruct (Z.eqb_spec (Path.startDot st) (0 + 1));
          [apply Z.eqb_eq | apply Z.eqb_neq]; lia. }
      rewrite B1, B2, B3, B4.
      destruct (_ || _); [reflexivity|].
      unfold Js.slice.
      replace (Z.to_nat (Path.startDot st + Z.of_nat (S (String.length pre))))
        with (S (String.length pre) + Z.to_nat (Path.startDot st))%nat by lia.
      replace (Path.end_ st + Z.of_nat (S (String.length pre)) -
               (Path.startDot st + Z.of_nat (S (String.length pre))))
        with (Path.end_ st - Path.startDot st) by lia.
      apply substring_behind_prefix. }
  split; [exact E|].
  unfold Upload.storage_filename. cbn [originalname]. rewrite E. reflexivity.
Qed.

Lemma extname_ignores_directory_witness :
  Upload.storage_filename demo_env
    (mkFilePart "../../etc/cron.d/clip.mp4" "video/mp4" 10240) =
  Upload.storage_filename demo_env (mkFilePart "clip.mp4" "video/mp4" 10240).
Proof.
  assert (Hne : "clip.mp4" <> "") by discriminate.
  exact (proj2 (extname_ignores_directory demo_env "../../etc/cron.d"
                  "clip.mp4" "video/mp4" 10240 Hne eq_refl)).
Defined.
